(** * FilmLab stock LUT generator: scripts/generate_stock_luts.py

    A shallow embedding of the colour pipeline (sRGB transfer functions,
    [grade_color], [grade_bw]), of the Hald cube sampler
    [generate_hald_lut] and of the PNG writer [write_png_rgba].

    Numbers.  Python [int] is [Z].  Python [float] is modelled by the real
    numbers: arithmetic is exact, there is no rounding, no infinity and no
    NaN.  The exceptions that float operations raise in Python are kept:
    [ZeroDivisionError] for a zero divisor and for [0.0] raised to a
    negative power, [OverflowError] for a power or an [int]-to-[float]
    conversion beyond the largest double, and for a [bytearray] longer than
    [sys.maxsize].  Byte strings are [list byte].  [zlib.crc32] and
    [zlib.compress] are parameters of the encoder.  Running out of memory
    or of disk depends on the machine and is not modelled. *)

From Stdlib Require Import Reals Lra ZArith Lia List Bool.
From Stdlib.Strings Require Import String Byte.
Import ListNotations.

(** ** Python runtime *)

Inductive exn : Type :=
| ZeroDivisionError
| OverflowError
| TypeError
| ValueError (msg : string)
| IndexError
| StructError.

Inductive result (A : Type) : Type :=
| Ok (a : A)
| Raise (e : exn).

Arguments Ok {A} a.
Arguments Raise {A} e.

Definition bind {A B : Type} (m : result A) (k : A -> result B) : result B :=
  match m with
  | Ok a => k a
  | Raise e => Raise e
  end.

Definition returns {A : Type} (m : result A) : Prop :=
  exists a, m = Ok a.

(** [for x in xs: state = body(x, state)], stopping at the first exception. *)
Fixpoint for_each {I S : Type} (body : I -> S -> result S) (xs : list I) (s : S)
  : result S :=
  match xs with
  | [] => Ok s
  | x :: xs' => bind (body x s) (for_each body xs')
  end.

(** Builtins, named as in Python. *)

Module Py.

(** [range(n)] *)
Definition range (n : Z) : list Z :=
  map Z.of_nat (seq 0 (Z.to_nat n)).

(** [a // b] and [a % b] on [int]: floor division, remainder with the sign
    of the divisor. *)
Definition floordiv (a b : Z) : result Z :=
  if (b =? 0)%Z then Raise ZeroDivisionError else Ok (a / b)%Z.

Definition mod_ (a b : Z) : result Z :=
  if (b =? 0)%Z then Raise ZeroDivisionError else Ok (a mod b)%Z.

Local Open Scope R_scope.

(** Largest finite double, [(2^53 - 1) * 2^971]. *)
Definition DBL_MAX : R := IZR ((2 ^ 53 - 1) * 2 ^ 971).

(** [float(n)] *)
Definition float_of_int (n : Z) : result R :=
  if Rlt_dec DBL_MAX (Rabs (IZR n)) then Raise OverflowError else Ok (IZR n).

(** [a / b] on floats *)
Definition truediv (a b : R) : result R :=
  if Req_dec_T b 0 then Raise ZeroDivisionError else Ok (a / b).

(** [min(a, b)] keeps [a] unless [b < a]; [max(a, b)] keeps [a] unless
    [b > a]. *)
Definition min (a b : R) : R := if Rlt_dec b a then b else a.
Definition max (a b : R) : R := if Rlt_dec a b then b else a.

Definition is_integer (y : R) : bool :=
  if Req_dec_T (IZR (Int_part y)) y then true else false.

Definition checked (r : R) : result R :=
  if Rlt_dec DBL_MAX (Rabs r) then Raise OverflowError else Ok r.

(** [pow(x, y)] and [x ** y] on floats.  Anything to the power 0 is 1; zero
    to a negative power raises; a negative base with a fractional exponent
    gives a complex number, on which the next comparison of this program
    raises [TypeError]; a result out of range raises [OverflowError]. *)
Definition pow (x y : R) : result R :=
  if Req_dec_T y 0 then Ok 1
  else if Req_dec_T x 0 then
    (if Rlt_dec y 0 then Raise ZeroDivisionError else Ok 0)
  else if Rlt_dec x 0 then
    (if is_integer y then
       checked (if Z.even (Int_part y) then Rpower (- x) y else - Rpower (- x) y)
     else Raise TypeError)
  else checked (Rpower x y).

(** [round(x)] with one argument: nearest integer, ties to even. *)
Definition round (x : R) : Z :=
  let f := Int_part x in
  let d := x - IZR f in
  if Rlt_dec d (1 / 2) then f
  else if Rlt_dec (1 / 2) d then (f + 1)%Z
  else if Z.even f then f else (f + 1)%Z.

Local Close Scope R_scope.
Local Open Scope Z_scope.

(** [len(b)] *)
Definition len {A : Type} (l : list A) : Z := Z.of_nat (List.length l).

(** [sys.maxsize] of a 64-bit build. *)
Definition maxsize : Z := 2 ^ 63 - 1.

(** [bytearray(n)]: a count beyond [sys.maxsize] does not fit an index and
    raises [OverflowError]. Running out of memory below that bound depends
    on the machine and is not modelled. *)
Definition bytearray (n : Z) : result (list byte) :=
  if n <? 0 then Raise (ValueError "negative count")
  else if maxsize <? n then Raise OverflowError
  else Ok (repeat x00 (Z.to_nat n)).

Definition byte_of_int (v : Z) : option byte :=
  if v <? 0 then None else Byte.of_N (Z.to_N v).

Fixpoint update {A : Type} (l : list A) (i : nat) (v : A) : list A :=
  match l, i with
  | [], _ => []
  | _ :: l', O => v :: l'
  | a :: l', S i' => a :: update l' i' v
  end.

(** [buf[i] = v] on a bytearray: the value must be in [range(256)], a
    negative index counts from the end. *)
Definition setitem (buf : list byte) (i v : Z) : result (list byte) :=
  match byte_of_int v with
  | None => Raise (ValueError "byte must be in range(0, 256)")
  | Some b =>
      let j := if i <? 0 then i + len buf else i in
      if (j <? 0) || (len buf <=? j) then Raise IndexError
      else Ok (update buf (Z.to_nat j) b)
  end.

(** [b[i:j]]: bounds are clipped, never an error. *)
Definition clip_index {A : Type} (l : list A) (i : Z) : nat :=
  Z.to_nat (if i <? 0 then Z.max (i + len l) 0 else Z.min i (len l)).

Definition slice {A : Type} (l : list A) (i j : Z) : list A :=
  let a := clip_index l i in
  let b := clip_index l j in
  firstn (b - a) (skipn a l).

(** [struct.pack(">I", n)]: four bytes, most significant first. *)
Definition pack_I (n : Z) : result (list byte) :=
  if (n <? 0) || (4294967295 <? n) then Raise StructError
  else
    match byte_of_int (Z.shiftr n 24), byte_of_int (Z.land (Z.shiftr n 16) 255),
          byte_of_int (Z.land (Z.shiftr n 8) 255), byte_of_int (Z.land n 255) with
    | Some b3, Some b2, Some b1, Some b0 => Ok [b3; b2; b1; b0]
    | _, _, _, _ => Raise StructError
    end.

(** [struct.pack(">B", n)] *)
Definition pack_B (n : Z) : result (list byte) :=
  match byte_of_int n with
  | Some b => Ok [b]
  | None => Raise StructError
  end.

(** [struct.pack(">IIBBBBB", a, b, c, d, e, f, g)] *)
Definition pack_IIBBBBB (a b c d e f g : Z) : result (list byte) :=
  bind (pack_I a) (fun a4 =>
  bind (pack_I b) (fun b4 =>
  bind (pack_B c) (fun c1 =>
  bind (pack_B d) (fun d1 =>
  bind (pack_B e) (fun e1 =>
  bind (pack_B f) (fun f1 =>
  bind (pack_B g) (fun g1 =>
  Ok (a4 ++ b4 ++ c1 ++ d1 ++ e1 ++ f1 ++ g1)))))))).

End Py.

Declare Scope py_scope.
Notation "x <- m ;; k" := (bind m (fun x => k))
  (at level 61, m at next level, right associativity) : py_scope.
Notation "' pat <- m ;; k" := (bind m (fun x => let pat := x in k))
  (at level 61, pat pattern, m at next level, right associativity) : py_scope.
Open Scope py_scope.

(** ** Colour space (lines 16-39) *)

Definition Rgb : Type := (R * R * R)%type.

Section ColorSpace.
Local Open Scope R_scope.

Definition clamp_between (value low high : R) : R :=
  Py.max low (Py.min high value).

(** [clamp(value)] with the defaults [low = 0.0], [high = 1.0]. *)
Definition clamp (value : R) : R := clamp_between value 0.0 1.0.

Definition srgb_to_linear (channel : R) : result R :=
  let c := clamp channel in
  if Rle_dec c 0.04045 then Ok (c / 12.92)
  else Py.pow ((c + 0.055) / 1.055) 2.4.

Definition linear_to_srgb (channel : R) : result R :=
  let c := clamp channel in
  if Rle_dec c 0.0031308 then Ok (c * 12.92)
  else p <- Py.pow c (1.0 / 2.4) ;; Ok (1.055 * p - 0.055).

Definition rgb_to_luma (linear_rgb : Rgb) : R :=
  let '(r, g, b) := linear_rgb in
  r * 0.2126 + g * 0.7152 + b * 0.0722.

End ColorSpace.

(** ** Grading engine (lines 42-111) *)

(** Keyword arguments of [grade_color]. *)
Record ColorParams : Type := {
  saturation : R;
  contrast : R;
  gamma : R;
  lift : R;
  gain : R;
  warmth : R;
  cool : R;
  shadow_teal : R
}.

Section Grading.
Local Open Scope R_scope.

(** The defaults of the keyword arguments. *)
Definition default_params : ColorParams := {|
  saturation := 1.0;
  contrast := 1.0;
  gamma := 1.0;
  lift := 0.0;
  gain := 1.0;
  warmth := 0.0;
  cool := 0.0;
  shadow_teal := 0.0
|}.

Definition grade_color (rgb : Rgb) (p : ColorParams) : result Rgb :=
  let '(r0, g0, b0) := rgb in
  lr <- srgb_to_linear r0 ;;
  lg <- srgb_to_linear g0 ;;
  lb <- srgb_to_linear b0 ;;
  let lum := rgb_to_luma (lr, lg, lb) in
  (* White-balance style shifts. *)
  let lr := lr * (1.0 + warmth p * 0.12 - cool p * 0.05) in
  let lg := lg * (1.0 + warmth p * 0.02 - cool p * 0.01) in
  let lb := lb * (1.0 - warmth p * 0.10 + cool p * 0.12) in
  (* Add cyan/teal bias in shadows for tungsten-style stocks. *)
  let shadow_weight := clamp (1.0 - lum * 1.8) in
  let lr := lr - shadow_teal p * 0.03 * shadow_weight in
  let lg := lg + shadow_teal p * 0.01 * shadow_weight in
  let lb := lb + shadow_teal p * 0.04 * shadow_weight in
  let lum2 := rgb_to_luma (lr, lg, lb) in
  let lr := lum2 + (lr - lum2) * saturation p in
  let lg := lum2 + (lg - lum2) * saturation p in
  let lb := lum2 + (lb - lum2) * saturation p in
  let pivot := 0.18 in
  let lr := (lr - pivot) * contrast p + pivot in
  let lg := (lg - pivot) * contrast p + pivot in
  let lb := (lb - pivot) * contrast p + pivot in
  let lr := (lr + lift p) * gain p in
  let lg := (lg + lift p) * gain p in
  let lb := (lb + lift p) * gain p in
  '(lr, lg, lb) <-
    (if Rlt_dec 1e-6 (Rabs (gamma p - 1.0)) then
       lr <- Py.pow (Py.max lr 0.0) (gamma p) ;;
       lg <- Py.pow (Py.max lg 0.0) (gamma p) ;;
       lb <- Py.pow (Py.max lb 0.0) (gamma p) ;;
       Ok (lr, lg, lb)
     else Ok (lr, lg, lb)) ;;
  er <- linear_to_srgb (clamp lr) ;;
  eg <- linear_to_srgb (clamp lg) ;;
  eb <- linear_to_srgb (clamp lb) ;;
  Ok (clamp er, clamp eg, clamp eb).

Definition grade_bw (rgb weights : Rgb) (contrast gamma warm_tone : R)
  : result Rgb :=
  let '(r0, g0, b0) := rgb in
  let '(w0, w1, w2) := weights in
  lr <- srgb_to_linear r0 ;;
  lg <- srgb_to_linear g0 ;;
  lb <- srgb_to_linear b0 ;;
  let lum := clamp (lr * w0 + lg * w1 + lb * w2) in
  let lum := clamp ((lum - 0.18) * contrast + 0.18) in
  lum <- Py.pow (Py.max lum 0.0) gamma ;;
  (* Optional mild selenium/warm paper tone. *)
  er <- linear_to_srgb (clamp (lum * (1.0 + warm_tone * 0.025))) ;;
  eg <- linear_to_srgb (clamp (lum * (1.0 + warm_tone * 0.008))) ;;
  eb <- linear_to_srgb (clamp (lum * (1.0 - warm_tone * 0.02))) ;;
  Ok (clamp er, clamp eg, clamp eb).

End Grading.

(** ** The grade as the specification words it: six stages between a decode
    and an encode *)

Module Stages.
Section Stages.
Local Open Scope R_scope.

Definition each (f : R -> R) (c : Rgb) : Rgb :=
  let '(r, g, b) := c in (f r, f g, f b).

Definition each_checked (f : R -> result R) (c : Rgb) : result Rgb :=
  let '(r, g, b) := c in
  r' <- f r ;; g' <- f g ;; b' <- f b ;; Ok (r', g', b').

Definition decode (encoded : Rgb) : result Rgb :=
  each_checked srgb_to_linear encoded.

(** (1) per-channel white-balance scaling from warmth and cool *)
Definition white_balance (p : ColorParams) (c : Rgb) : Rgb :=
  let '(r, g, b) := c in
  (r * (1 + warmth p * 0.12 - cool p * 0.05),
   g * (1 + warmth p * 0.02 - cool p * 0.01),
   b * (1 - warmth p * 0.10 + cool p * 0.12)).

(** (2) teal/cyan bias weighted by the shadow weight *)
Definition shadow_weight (luma : R) : R := clamp_between (1 - luma * 1.8) 0 1.

Definition teal_bias (p : ColorParams) (w : R) (c : Rgb) : Rgb :=
  let '(r, g, b) := c in
  (r - shadow_teal p * 0.03 * w,
   g + shadow_teal p * 0.01 * w,
   b + shadow_teal p * 0.04 * w).

(** (3) saturation around the luma recomputed after stages 1-2 *)
Definition saturate (p : ColorParams) (c : Rgb) : Rgb :=
  let y := rgb_to_luma c in
  each (fun v => y + (v - y) * saturation p) c.

(** (4) contrast around the pivot 0.18 *)
Definition pivot_contrast (p : ColorParams) : Rgb -> Rgb :=
  each (fun v => (v - 0.18) * contrast p + 0.18).

(** (5) additive lift, then multiplicative gain *)
Definition lift_gain (p : ColorParams) : Rgb -> Rgb :=
  each (fun v => (v + lift p) * gain p).

(** (6) power-law gamma on the non-negative part, skipped near 1 *)
Definition gamma_law (p : ColorParams) (c : Rgb) : result Rgb :=
  if Rlt_dec 1e-6 (Rabs (gamma p - 1)) then
    each_checked (fun v => Py.pow (Py.max v 0) (gamma p)) c
  else Ok c.

(** clamp, re-encode, clamp again *)
Definition encode (c : Rgb) : result Rgb :=
  each_checked
    (fun v => e <- linear_to_srgb (clamp_between v 0 1) ;; Ok (clamp_between e 0 1)) c.

Definition pipeline (encoded : Rgb) (p : ColorParams) : result Rgb :=
  lin <- decode encoded ;;
  let w := shadow_weight (rgb_to_luma lin) in
  let s1 := white_balance p lin in
  let s2 := teal_bias p w s1 in
  let s3 := saturate p s2 in
  let s4 := pivot_contrast p s3 in
  let s5 := lift_gain p s4 in
  s6 <- gamma_law p s5 ;;
  encode s6.

End Stages.
End Stages.

(** Lines 102-105 of [grade_bw] on their own: the weighted luma, and the
    base handed to the gamma power. *)
Section BwLuma.
Local Open Scope R_scope.

Definition bw_weighted_luma (lin weights : Rgb) : R :=
  let '(lr, lg, lb) := lin in
  let '(w0, w1, w2) := weights in
  lr * w0 + lg * w1 + lb * w2.

Definition bw_gamma_base (lin weights : Rgb) (contrast : R) : R :=
  let lum := clamp (bw_weighted_luma lin weights) in
  let lum := clamp ((lum - 0.18) * contrast + 0.18) in
  Py.max lum 0.0.

(** Lines 105-111: from the gamma power to the returned triple. *)
Definition bw_tone (base gamma warm_tone : R) : result Rgb :=
  lum <- Py.pow base gamma ;;
  er <- linear_to_srgb (clamp (lum * (1.0 + warm_tone * 0.025))) ;;
  eg <- linear_to_srgb (clamp (lum * (1.0 + warm_tone * 0.008))) ;;
  eb <- linear_to_srgb (clamp (lum * (1.0 - warm_tone * 0.02))) ;;
  Ok (clamp er, clamp eg, clamp eb).

(** A parameter set of moderate size: every knob within 10 of zero, gamma
    in [[0, 10]].  The presets of the script lie well inside. *)
Definition moderate (p : ColorParams) : Prop :=
  -10 <= saturation p <= 10 /\ -10 <= contrast p <= 10 /\
  -10 <= lift p <= 10 /\ -10 <= gain p <= 10 /\
  -10 <= warmth p <= 10 /\ -10 <= cool p <= 10 /\
  -10 <= shadow_teal p <= 10 /\ 0 <= gamma p <= 10.

Definition bounded_by (B : R) (c : Rgb) : Prop :=
  let '(r, g, b) := c in - B <= r <= B /\ - B <= g <= B /\ - B <= b <= B.

Definition in_unit (v : R) : Prop := 0 <= v <= 1.

Definition in_unit_cube (c : Rgb) : Prop :=
  let '(r, g, b) := c in in_unit r /\ in_unit g /\ in_unit b.

Definition within (eps : R) (u v : Rgb) : Prop :=
  let '(r, g, b) := u in
  let '(r', g', b') := v in
  Rabs (r - r') <= eps /\ Rabs (g - g') <= eps /\ Rabs (b - b') <= eps.

End BwLuma.

(** ** Cube sampler (lines 252-276) *)

Section Sampler.
Local Open Scope Z_scope.

Variable transform : Rgb -> result Rgb.

Definition hald_size (level : Z) : Z := level * level.
Definition hald_width (level : Z) : Z := level * hald_size level.

(** Lines 261-263. *)
Definition cube_index (size index : Z) : result (Z * Z * Z) :=
  r_index <- Py.mod_ index size ;;
  g_index <- (q <- Py.floordiv index size ;; Py.mod_ q size) ;;
  b_index <- Py.floordiv index (size * size) ;;
  Ok (r_index, g_index, b_index).

(** Lines 268-269. *)
Definition pixel_position (width index : Z) : result (Z * Z) :=
  x <- Py.mod_ index width ;;
  y <- Py.floordiv index width ;;
  Ok (x, y).

(** [int(round(clamp(v) * 255))] *)
Definition quantize (v : R) : Z := Py.round (clamp v * 255)%R.

(** One turn of the loop, lines 261-274. *)
Definition hald_cell (size width : Z) (denom : R) (index : Z) (out : list byte)
  : result (list byte) :=
  '(r_index, g_index, b_index) <- cube_index size index ;;
  sr <- Py.truediv (IZR r_index) denom ;;
  sg <- Py.truediv (IZR g_index) denom ;;
  sb <- Py.truediv (IZR b_index) denom ;;
  '(r, g, b) <- transform (sr, sg, sb) ;;
  '(x, y) <- pixel_position width index ;;
  let offset := (y * width + x) * 4 in
  out <- Py.setitem out (offset + 0) (quantize r) ;;
  out <- Py.setitem out (offset + 1) (quantize g) ;;
  out <- Py.setitem out (offset + 2) (quantize b) ;;
  Py.setitem out (offset + 3) 255.

Definition generate_hald_lut (level : Z) : result (list byte) :=
  let size := hald_size level in
  let width := hald_width level in
  let height := width in
  let total_pixels := size * size * size in
  out <- Py.bytearray (width * height * 4) ;;
  denom <- Py.float_of_int (size - 1) ;;
  for_each (hald_cell size width denom) (Py.range total_pixels) out.

End Sampler.

(** ** PNG writer (lines 226-249) *)

(** The files on disk, as paths with their contents. *)
Definition filesystem : Type := list (string * list byte).


(** [path.write_bytes(data)]: the file is created, or replaced when there
    is one already; failures of the disk are not modelled. *)
Definition write_bytes (path : string) (data : list byte) (fs : filesystem)
  : filesystem :=
  (path, data) :: filter (fun entry => negb (String.eqb (fst entry) path)) fs.

Definition png_signature : list byte :=
  [x89; x50; x4e; x47; x0d; x0a; x1a; x0a].

Definition IHDR : list byte := list_byte_of_string "IHDR".
Definition IDAT : list byte := list_byte_of_string "IDAT".
Definition IEND : list byte := list_byte_of_string "IEND".

Section Encoder.
Local Open Scope Z_scope.

(** [zlib.crc32(data)] and [zlib.compress(data, level)] *)
Variable zlib_crc32 : list byte -> Z.
Variable zlib_compress : list byte -> Z -> list byte.

(** The inner function [chunk], lines 230-232. *)
Definition chunk (tag payload : list byte) : result (list byte) :=
  let crc := Z.land (zlib_crc32 (tag ++ payload)) 0xFFFFFFFF in
  n <- Py.pack_I (Py.len payload) ;;
  c <- Py.pack_I crc ;;
  Ok (n ++ tag ++ payload ++ c).

(** Lines 234-239: every row of [stride] bytes behind a filter byte 0. *)
Definition filter_rows (width height : Z) (rgba : list byte) : list byte :=
  let stride := width * 4 in
  fold_left
    (fun scanlines y =>
       let scanlines := scanlines ++ [x00] in
       let start := y * stride in
       scanlines ++ Py.slice rgba start (start + stride))
    (Py.range height) [].

Definition write_png_rgba (path : string) (width height : Z) (rgba : list byte)
  (fs : filesystem) : result unit * filesystem :=
  if negb (Py.len rgba =? width * height * 4) then
    (Raise (ValueError "Invalid RGBA buffer size."), fs)
  else
    let scanlines := filter_rows width height rgba in
    let png :=
      ihdr <- Py.pack_IIBBBBB width height 8 6 0 0 0 ;;
      let idat := zlib_compress scanlines 9 in
      c1 <- chunk IHDR ihdr ;;
      c2 <- chunk IDAT idat ;;
      c3 <- chunk IEND [] ;;
      Ok (png_signature ++ c1 ++ c2 ++ c3) in
    match png with
    | Ok data => (Ok tt, write_bytes path data fs)
    | Raise e => (Raise e, fs)
    end.

End Encoder.

(** Reading the container back: the value of a big-endian byte string, and
    the layout of one chunk. *)
Section Container.
Local Open Scope Z_scope.

Definition be_value (bs : list byte) : Z :=
  fold_left (fun acc b => acc * 256 + Z.of_N (Byte.to_N b)) bs 0.

Record chunk_layout (crc32 : list byte -> Z) (tag payload c : list byte) : Prop := {
  layout_fields :
    exists len4 crc4,
      c = len4 ++ tag ++ payload ++ crc4 /\
      List.length len4 = 4%nat /\ be_value len4 = Py.len payload /\
      List.length crc4 = 4%nat /\
      be_value crc4 = Z.land (crc32 (tag ++ payload)) 0xFFFFFFFF;
  layout_tag : List.length tag = 4%nat
}.

Record header_layout (width height : Z) (ihdr : list byte) : Prop := {
  header_fields :
    exists w4 h4,
      ihdr = w4 ++ h4 ++ [x08; x06; x00; x00; x00] /\
      List.length w4 = 4%nat /\ be_value w4 = width /\
      List.length h4 = 4%nat /\ be_value h4 = height
}.

(** The CRC-32 of the PNG and zlib formats (polynomial 0xEDB88320), bit by
    bit; an instance of the [zlib_crc32] parameter. *)
Definition crc32_bit (c : Z) : Z :=
  if Z.odd c then Z.lxor (Z.shiftr c 1) 0xEDB88320 else Z.shiftr c 1.

Definition crc32_byte (crc : Z) (b : byte) : Z :=
  let c := Z.lxor crc (Z.of_N (Byte.to_N b)) in
  crc32_bit (crc32_bit (crc32_bit (crc32_bit
    (crc32_bit (crc32_bit (crc32_bit (crc32_bit c))))))).

Definition crc32 (data : list byte) : Z :=
  Z.lxor (fold_left crc32_byte data 0xFFFFFFFF) 0xFFFFFFFF.

(** A compressor that stores its input unchanged: an instance of the
    [zlib_compress] parameter for the examples, not what zlib emits. *)
Definition stored (data : list byte) (level : Z) : list byte := data.

End Container.

(** ** Stock transforms (lines 114-223) *)

Section Stocks.
Local Open Scope R_scope.

(** The keyword arguments of each colour stock, defaults filled in. *)
Definition portra_400 : ColorParams := {|
  saturation := 0.93; contrast := 0.95; gamma := 0.98; lift := 0.010;
  gain := 1.0; warmth := 0.22; cool := 0.0; shadow_teal := 0.0
|}.

Definition ektar_100 : ColorParams := {|
  saturation := 1.26; contrast := 1.12; gamma := 1.02; lift := 0.0;
  gain := 1.01; warmth := 0.10; cool := 0.0; shadow_teal := 0.0
|}.

Definition gold_200 : ColorParams := {|
  saturation := 1.05; contrast := 0.98; gamma := 0.99; lift := 0.014;
  gain := 1.0; warmth := 0.28; cool := 0.0; shadow_teal := 0.0
|}.

Definition cinestill_800t : ColorParams := {|
  saturation := 1.08; contrast := 1.05; gamma := 1.01; lift := 0.006;
  gain := 1.0; warmth := 0.0; cool := 0.24; shadow_teal := 0.55
|}.

Definition provia_100f : ColorParams := {|
  saturation := 1.05; contrast := 1.08; gamma := 1.01; lift := 0.0;
  gain := 1.0; warmth := 0.0; cool := 0.05; shadow_teal := 0.0
|}.

Definition velvia_50 : ColorParams := {|
  saturation := 1.36; contrast := 1.18; gamma := 1.04; lift := -0.004;
  gain := 1.02; warmth := 0.0; cool := 0.02; shadow_teal := 0.0
|}.

Definition trix_weights : Rgb := (0.32, 0.56, 0.12).
Definition hp5_weights : Rgb := (0.28, 0.62, 0.10).

Definition transform_portra_400 (rgb : Rgb) : result Rgb :=
  grade_color rgb portra_400.

Definition transform_ektar_100 (rgb : Rgb) : result Rgb :=
  grade_color rgb ektar_100.

Definition transform_gold_200 (rgb : Rgb) : result Rgb :=
  grade_color rgb gold_200.

Definition transform_cinestill_800t (rgb : Rgb) : result Rgb :=
  (* Cyan shadows + warm highlights. *)
  '(r, g, b) <- grade_color rgb cinestill_800t ;;
  let y := (r + g + b) / 3.0 in
  let highlight := clamp ((y - 0.55) * 2.0) in
  let r := clamp (r + highlight * 0.020) in
  let g := clamp (g + highlight * 0.004) in
  let b := clamp (b - highlight * 0.016) in
  Ok (r, g, b).

Definition transform_provia_100f (rgb : Rgb) : result Rgb :=
  grade_color rgb provia_100f.

Definition transform_velvia_50 (rgb : Rgb) : result Rgb :=
  grade_color rgb velvia_50.

Definition transform_trix_400 (rgb : Rgb) : result Rgb :=
  grade_bw rgb trix_weights 1.20 1.02 0.06.

Definition transform_hp5_plus (rgb : Rgb) : result Rgb :=
  grade_bw rgb hp5_weights 1.08 0.99 0.02.

Definition TRANSFORMS : list (string * (Rgb -> result Rgb)) :=
  [("portra400.png"%string, transform_portra_400);
   ("ektar100.png"%string, transform_ektar_100);
   ("gold200.png"%string, transform_gold_200);
   ("cinestill800t.png"%string, transform_cinestill_800t);
   ("provia100f.png"%string, transform_provia_100f);
   ("velvia50.png"%string, transform_velvia_50);
   ("trix400.png"%string, transform_trix_400);
   ("hp5plus.png"%string, transform_hp5_plus)].

(** Not a stock: the defaults of [grade_color] with [gamma = -1]. *)
Definition inverse_gamma : ColorParams := {|
  saturation := 1.0; contrast := 1.0; gamma := -1; lift := 0.0;
  gain := 1.0; warmth := 0.0; cool := 0.0; shadow_teal := 0.0
|}.

End Stocks.

(** What [struct.pack(">I", n)] accepts. *)
Definition fits_uint32 (n : Z) : Prop := (0 <= n <= 4294967295)%Z.

Definition size_mismatch : exn := ValueError "Invalid RGBA buffer size.".

(** A 2x2 image of white, opaque pixels. *)
Definition white_2x2 : list byte := repeat xff 16.

(** A triple on the neutral axis. *)
Definition is_gray (c : Rgb) : Prop :=
  let '(r, g, b) := c in r = g /\ g = b.

(** The defaults of [grade_color] with [saturation = 0]. *)
Definition desaturated : ColorParams := {|
  saturation := 0; contrast := 1.0%R; gamma := 1.0%R; lift := 0.0%R;
  gain := 1.0%R; warmth := 0.0%R; cool := 0.0%R; shadow_teal := 0.0%R
|}.

(** Reading a buffer back: a byte as an integer, and the four bytes of the
    pixel of an index. *)
Definition byte_value (b : byte) : Z := Z.of_N (Byte.to_N b).

Definition pixel_at (out : list byte) (index : Z) : list Z :=
  map (fun k => byte_value (nth (Z.to_nat (4 * index + k)) out x00))
    [0; 1; 2; 3]%Z.

(** Line 265 with the indices of lines 261-263 and [denom] of line 258:
    the colour the transform is given at an index. *)
Definition cube_color (size index : Z) : Rgb :=
  let denom := IZR (size - 1) in
  (IZR (index mod size) / denom,
   IZR ((index / size) mod size) / denom,
   IZR (index / (size * size)) / denom)%R.

(** Not a stock: a transform that raises on every colour. *)
Definition raising_transform (c : Rgb) : result Rgb := Raise TypeError.

(** ** Reading a PNG back

    A reader for the files [write_png_rgba] writes, used to state round
    trips: it undoes the scanline filter 0, splits a stream into chunks and
    checks signature, tags, checksums and the fixed header bytes. *)

(** Drops the filter byte in front of each of [rows] rows of [stride]
    bytes. *)
Fixpoint unfilter_rows (stride rows : nat) (data : list byte) : list byte :=
  match rows with
  | O => []
  | S rows' =>
      firstn stride (skipn 1 data) ++ unfilter_rows stride rows' (skipn (1 + stride) data)
  end.

Definition bytes_eqb (a b : list byte) : bool :=
  if list_eq_dec Byte.byte_eq_dec a b then true else false.

(** One chunk off the front of a stream: tag, payload, stored checksum and
    the rest of the stream. *)
Definition read_chunk (data : list byte)
  : option (list byte * list byte * Z * list byte) :=
  let n := Z.to_nat (be_value (firstn 4 data)) in
  if (List.length data <? 12 + n)%nat then None
  else Some (firstn 4 (skipn 4 data),
             firstn n (skipn 8 data),
             be_value (firstn 4 (skipn (8 + n) data)),
             skipn (12 + n) data).

Definition checksum_ok (crc32 : list byte -> Z) (tag payload : list byte) (crc : Z)
  : bool :=
  (crc =? Z.land (crc32 (tag ++ payload)) 0xFFFFFFFF)%Z.

(** Width, height and compressed data of a stream made of the signature
    and exactly the chunks IHDR (8-bit RGBA, no interlace), IDAT, IEND. *)
Definition read_png (crc32 : list byte -> Z) (data : list byte)
  : option (Z * Z * list byte) :=
  if negb (bytes_eqb (firstn 8 data) png_signature) then None
  else
    match read_chunk (skipn 8 data) with
    | None => None
    | Some (tag1, ihdr, crc1, rest1) =>
        match read_chunk rest1 with
        | None => None
        | Some (tag2, idat, crc2, rest2) =>
            match read_chunk rest2 with
            | None => None
            | Some (tag3, iend, crc3, rest3) =>
                if bytes_eqb tag1 IHDR && checksum_ok crc32 tag1 ihdr crc1
                   && bytes_eqb (skipn 8 ihdr) [x08; x06; x00; x00; x00]
                   && bytes_eqb tag2 IDAT && checksum_ok crc32 tag2 idat crc2
                   && bytes_eqb tag3 IEND && checksum_ok crc32 tag3 iend crc3
                   && bytes_eqb iend [] && bytes_eqb rest3 []
                then Some (be_value (firstn 4 ihdr),
                           be_value (firstn 4 (skipn 4 ihdr)), idat)
                else None
            end
        end
    end.

(** ** The script's entry point (lines 279-285) *)






Section Main.

Variable zlib_crc32 : list byte -> Z.
Variable zlib_compress : list byte -> Z -> list byte.




End Main.



Example crc32_IEND : crc32 IEND = 0xAE426082%Z.
Proof. vm_compute. reflexivity. Qed.

(** * Properties *)

(** ** Comparisons and clamping *)

Ltac split_cmp :=
  repeat match goal with
  | |- context [Rlt_dec ?a ?b] => destruct (Rlt_dec a b)
  | |- context [Rle_dec ?a ?b] => destruct (Rle_dec a b)
  | |- context [Req_dec_T ?a ?b] => destruct (Req_dec_T a b)
  | H : context [Rlt_dec ?a ?b] |- _ => destruct (Rlt_dec a b)
  | H : context [Rle_dec ?a ?b] |- _ => destruct (Rle_dec a b)
  | H : context [Req_dec_T ?a ?b] |- _ => destruct (Req_dec_T a b)
  end.

Section Clamp.
Local Open Scope R_scope.

Lemma clamp_range (v : R) : 0 <= clamp v <= 1.
Proof.
  unfold clamp, clamp_between, Py.max, Py.min. split_cmp; lra.
Qed.

Lemma clamp_inside (v : R) : 0 <= v <= 1 -> clamp v = v.
Proof.
  intros Hv. unfold clamp, clamp_between, Py.max, Py.min. split_cmp; lra.
Qed.

Lemma clamp_high (v : R) : 1 <= v -> clamp v = 1.
Proof.
  intros Hv. unfold clamp, clamp_between, Py.max, Py.min. split_cmp; lra.
Qed.

Lemma clamp_low (v : R) : v <= 0 -> clamp v = 0.
Proof.
  intros Hv. unfold clamp, clamp_between, Py.max, Py.min. split_cmp; lra.
Qed.

Lemma clamp_closer (v c : R) : 0 <= c <= 1 -> Rabs (clamp v - c) <= Rabs (v - c).
Proof.
  intros Hc. unfold clamp, clamp_between, Py.max, Py.min.
  split_cmp; unfold Rabs; repeat destruct Rcase_abs; lra.
Qed.

Lemma max_zero_inside (v : R) : 0 <= v -> Py.max v 0.0 = v.
Proof.
  intros Hv. unfold Py.max. split_cmp; lra.
Qed.

Lemma one_le_DBL_MAX : 1 <= Py.DBL_MAX.
Proof.
  unfold Py.DBL_MAX. apply IZR_le. lia.
Qed.

End Clamp.

(** ** Powers *)

Section Powers.
Local Open Scope R_scope.

Lemma exp_le (a b : R) : a <= b -> exp a <= exp b.
Proof.
  intros [Hlt | ->]; [left; now apply exp_increasing | right; reflexivity].
Qed.

Lemma ln_le (a b : R) : 0 < a -> a <= b -> ln a <= ln b.
Proof.
  intros Ha [Hlt | ->]; [left; now apply ln_increasing | right; reflexivity].
Qed.

Lemma Rpower_unit (x y : R) : 0 < x <= 1 -> 0 <= y -> 0 < Rpower x y <= 1.
Proof.
  intros [Hx0 Hx1] Hy. unfold Rpower. split; [apply exp_pos |].
  rewrite <- exp_0. apply exp_le.
  assert (ln x <= 0) by (rewrite <- ln_1; now apply ln_le).
  nra.
Qed.

(** Bounds on a rational power from integer powers:
    [a^m <= x^n] gives [a <= x^(n/m)], and conversely. *)
Lemma Rpower_lower (a x : R) (n m : nat) :
  0 < a -> 0 < x -> (0 < m)%nat -> a ^ m <= x ^ n ->
  a <= Rpower x (INR n / INR m).
Proof.
  intros Ha Hx Hm Hpow.
  assert (HM : 0 < INR m) by now apply lt_0_INR.
  assert (Hln : INR m * ln a <= INR n * ln x).
  { rewrite <- !ln_pow by assumption. apply ln_le; [now apply pow_lt | exact Hpow]. }
  rewrite <- (exp_ln a Ha) at 1. unfold Rpower. apply exp_le.
  apply Rmult_le_reg_l with (INR m); [exact HM |].
  replace (INR m * (INR n / INR m * ln x)) with (INR n * ln x) by (field; lra).
  exact Hln.
Qed.

Lemma Rpower_upper (a x : R) (n m : nat) :
  0 < a -> 0 < x -> (0 < m)%nat -> x ^ n <= a ^ m ->
  Rpower x (INR n / INR m) <= a.
Proof.
  intros Ha Hx Hm Hpow.
  assert (HM : 0 < INR m) by now apply lt_0_INR.
  assert (Hln : INR n * ln x <= INR m * ln a).
  { rewrite <- !ln_pow by assumption. apply ln_le; [now apply pow_lt | exact Hpow]. }
  rewrite <- (exp_ln a Ha) at 1. unfold Rpower. apply exp_le.
  apply Rmult_le_reg_l with (INR m); [exact HM |].
  replace (INR m * (INR n / INR m * ln x)) with (INR n * ln x) by (field; lra).
  exact Hln.
Qed.

Lemma Rpower_lower_strict (a x : R) (n m : nat) :
  0 < a -> 0 < x -> (0 < m)%nat -> a ^ m < x ^ n ->
  a < Rpower x (INR n / INR m).
Proof.
  intros Ha Hx Hm Hpow.
  assert (HM : 0 < INR m) by now apply lt_0_INR.
  assert (Hln : INR m * ln a < INR n * ln x).
  { rewrite <- !ln_pow by assumption.
    apply ln_increasing; [now apply pow_lt | exact Hpow]. }
  rewrite <- (exp_ln a Ha) at 1. unfold Rpower. apply exp_increasing.
  apply Rmult_lt_reg_l with (INR m); [exact HM |].
  replace (INR m * (INR n / INR m * ln x)) with (INR n * ln x) by (field; lra).
  exact Hln.
Qed.

Lemma checked_small (r : R) : Rabs r <= 1 -> Py.checked r = Ok r.
Proof.
  intros Hr. unfold Py.checked. pose proof one_le_DBL_MAX.
  destruct (Rlt_dec Py.DBL_MAX (Rabs r)); [lra | reflexivity].
Qed.

(** The power of a base in [(0, 1]] to a non-negative exponent is computed,
    and stays in [(0, 1]]. *)
Lemma pow_unit (x y : R) :
  0 < x <= 1 -> 0 < y -> Py.pow x y = Ok (Rpower x y) /\ 0 < Rpower x y <= 1.
Proof.
  intros Hx Hy. pose proof (Rpower_unit x y Hx (Rlt_le _ _ Hy)) as Hp.
  split; [| exact Hp]. unfold Py.pow.
  destruct (Req_dec_T y 0); [lra |].
  destruct (Req_dec_T x 0); [lra |].
  destruct (Rlt_dec x 0); [lra |].
  apply checked_small. rewrite Rabs_pos_eq; lra.
Qed.

End Powers.

(** ** Transfer functions *)

Section Transfer.
Local Open Scope R_scope.

Lemma exponent_decode : 2.4 = INR 12 / INR 5.
Proof. simpl. lra. Qed.

Lemma exponent_encode : 1.0 / 2.4 = INR 5 / INR 12.
Proof. simpl. lra. Qed.

Lemma srgb_to_linear_ok (channel : R) :
  exists l, srgb_to_linear channel = Ok l /\ 0 <= l <= 1.
Proof.
  unfold srgb_to_linear. pose proof (clamp_range channel) as Hc.
  set (c := clamp channel) in *.
  destruct (Rle_dec c 0.04045) as [Hlow | Hhigh].
  - exists (c / 12.92). split; [reflexivity | lra].
  - assert (Hb : 0 < (c + 0.055) / 1.055 <= 1) by lra.
    destruct (pow_unit _ 2.4 Hb ltac:(lra)) as [Heq Hp].
    eexists. split; [exact Heq | lra].
Qed.

Lemma linear_to_srgb_ok (channel : R) :
  exists e, linear_to_srgb channel = Ok e.
Proof.
  unfold linear_to_srgb. pose proof (clamp_range channel) as Hc.
  set (c := clamp channel) in *.
  destruct (Rle_dec c 0.0031308) as [Hlow | Hhigh].
  - eexists. reflexivity.
  - assert (Hb : 0 < c <= 1) by lra.
    destruct (pow_unit _ (1.0 / 2.4) Hb ltac:(lra)) as [Heq _].
    rewrite Heq. eexists. reflexivity.
Qed.

(** Above the breakpoint the decoded value stays above the encoder's
    threshold: [(0.09545 / 1.055)^12 > 0.0031308^5]. *)
Lemma decode_above_threshold (b : R) :
  0.09545 / 1.055 < b -> 0.0031308 < Rpower b 2.4.
Proof.
  intros Hb. rewrite exponent_decode.
  apply Rpower_lower_strict; [lra | lra | lia |].
  apply Rlt_le_trans with ((0.09545 / 1.055) ^ 12); [lra |].
  apply pow_incr. lra.
Qed.

(** Between the two thresholds the encoder's power branch runs on a value
    the decoder's linear branch produced. *)
Lemma encode_gap (l : R) :
  0.0031308 < l <= 0.04045 / 12.92 ->
  0.09047 <= Rpower l (1.0 / 2.4) <= 0.09048.
Proof.
  intros Hl. rewrite exponent_encode. split.
  - apply Rpower_lower; [lra | lra | lia |].
    apply Rle_trans with (0.0031308 ^ 5); [lra |].
    apply pow_incr. lra.
  - apply Rpower_upper; [lra | lra | lia |].
    apply Rle_trans with ((0.04045 / 12.92) ^ 5); [| lra].
    apply pow_incr. lra.
Qed.

Lemma roundtrip_close (c : R) :
  0 <= c <= 1 ->
  exists l e,
    srgb_to_linear c = Ok l /\ 0 <= l <= 1 /\
    linear_to_srgb l = Ok e /\ Rabs (e - c) <= 1e-5.
Proof.
  intros Hc. unfold srgb_to_linear. rewrite (clamp_inside c Hc).
  destruct (Rle_dec c 0.04045) as [Hlow | Hhigh].
  - exists (c / 12.92).
    assert (Hl : 0 <= c / 12.92 <= 1) by lra.
    unfold linear_to_srgb. rewrite (clamp_inside _ Hl).
    destruct (Rle_dec (c / 12.92) 0.0031308) as [Hl2 | Hl2].
    + eexists. repeat split; try lra.
      replace (c / 12.92 * 12.92 - c) with 0 by lra.
      rewrite Rabs_R0. lra.
    + assert (Hgap : 0.0031308 < c / 12.92 <= 0.04045 / 12.92) by lra.
      pose proof (encode_gap _ Hgap) as Hp.
      destruct (pow_unit (c / 12.92) (1.0 / 2.4) ltac:(lra) ltac:(lra)) as [Heq _].
      rewrite Heq. eexists. repeat split; try lra.
      cbn [bind]. unfold Rabs. destruct Rcase_abs; lra.
  - set (b := (c + 0.055) / 1.055).
    assert (Hb : 0.09545 / 1.055 < b <= 1) by (unfold b; lra).
    destruct (pow_unit b 2.4 ltac:(lra) ltac:(lra)) as [Heq Hp].
    pose proof (decode_above_threshold b (proj1 Hb)) as Habove.
    exists (Rpower b 2.4). rewrite Heq.
    assert (Hl : 0 <= Rpower b 2.4 <= 1) by lra.
    unfold linear_to_srgb. rewrite (clamp_inside _ Hl).
    destruct (Rle_dec (Rpower b 2.4) 0.0031308) as [Hl2 | _]; [lra |].
    destruct (pow_unit (Rpower b 2.4) (1.0 / 2.4) ltac:(lra) ltac:(lra)) as [Heq2 _].
    rewrite Heq2, Rpower_mult.
    replace (2.4 * (1.0 / 2.4)) with 1 by lra.
    rewrite Rpower_1 by lra.
    eexists. repeat split; try lra.
    cbn [bind]. replace (1.055 * b - 0.055 - c) with 0 by (unfold b; lra).
    rewrite Rabs_R0. lra.
Qed.

End Transfer.

(** ** The full-colour grade *)

Section GradeColor.
Local Open Scope R_scope.

Lemma lit_one : 1.0 = 1.
Proof. lra. Qed.

Lemma lit_zero : 0.0 = 0.
Proof. lra. Qed.

Lemma grade_color_as_pipeline (rgb : Rgb) (p : ColorParams) :
  grade_color rgb p = Stages.pipeline rgb p.
Proof.
  destruct rgb as [[r g] b].
  unfold grade_color, Stages.pipeline, Stages.decode, Stages.each_checked.
  destruct (srgb_to_linear r) as [lr | e]; [| reflexivity].
  destruct (srgb_to_linear g) as [lg | e]; [| reflexivity].
  destruct (srgb_to_linear b) as [lb | e]; [| reflexivity].
  cbn [bind].
  unfold Stages.gamma_law, Stages.lift_gain, Stages.pivot_contrast,
    Stages.saturate, Stages.teal_bias, Stages.white_balance,
    Stages.shadow_weight, Stages.encode, Stages.each, Stages.each_checked, clamp.
  cbv zeta. rewrite !lit_one, !lit_zero. cbn [rgb_to_luma].
  destruct (Rlt_dec 1e-6 (Rabs (gamma p - 1))) as [Hg | Hg]; cbn [bind].
  - repeat match goal with
    | |- context [Py.pow ?x ?y] => destruct (Py.pow x y); cbn [bind]; try reflexivity
    end.
    repeat match goal with
    | |- context [linear_to_srgb ?x] =>
        destruct (linear_to_srgb x); cbn [bind]; try reflexivity
    end.
  - repeat match goal with
    | |- context [linear_to_srgb ?x] =>
        destruct (linear_to_srgb x); cbn [bind]; try reflexivity
    end.
Qed.

(** C1. [grade_color] is the composition the specification describes:
    decode each channel, then white balance, shadow-weighted teal bias,
    saturation around the recomputed luma, contrast around 0.18, lift then
    gain, the gamma power when [|gamma - 1| > 1e-6], and finally clamp,
    re-encode, clamp; in this order, for every input and every parameter
    set, exceptions included. *)
Theorem grade_color_stage_order (rgb : Rgb) (p : ColorParams) :
  grade_color rgb p = Stages.pipeline rgb p.
Proof.
  exact (grade_color_as_pipeline rgb p).
Qed.


Lemma grade_color_default (r g b : R) :
  grade_color (r, g, b) default_params =
  (lr <- srgb_to_linear r ;;
   lg <- srgb_to_linear g ;;
   lb <- srgb_to_linear b ;;
   er <- linear_to_srgb (clamp lr) ;;
   eg <- linear_to_srgb (clamp lg) ;;
   eb <- linear_to_srgb (clamp lb) ;;
   Ok (clamp er, clamp eg, clamp eb)).
Proof.
  unfold grade_color.
  destruct (srgb_to_linear r) as [lr | e]; [| reflexivity].
  destruct (srgb_to_linear g) as [lg | e]; [| reflexivity].
  destruct (srgb_to_linear b) as [lb | e]; [| reflexivity].
  cbn [bind saturation contrast gamma lift gain warmth cool shadow_teal
       default_params].
  cbv zeta.
  destruct (Rlt_dec 1e-6 (Rabs (1.0 - 1.0))) as [Hg | _].
  { exfalso. replace (1.0 - 1.0) with 0 in Hg by lra. rewrite Rabs_R0 in Hg. lra. }
  cbn [bind].
  match goal with
  | |- bind (linear_to_srgb (clamp ?a)) (fun er =>
         bind (linear_to_srgb (clamp ?b)) (fun eg =>
           bind (linear_to_srgb (clamp ?c)) _)) = _ =>
      replace a with lr by (unfold rgb_to_luma; lra);
      replace b with lg by (unfold rgb_to_luma; lra);
      replace c with lb by (unfold rgb_to_luma; lra)
  end.
  reflexivity.
Qed.

(** C6. Decoding then re-encoding a channel value of [[0, 1]] gives it
    back within 1e-4.  In exact arithmetic this holds at the breakpoint
    0.04045 too, so the breakpoint is not excluded. *)
Theorem srgb_roundtrip (c : R) :
  0 <= c <= 1 ->
  exists l e,
    srgb_to_linear c = Ok l /\ linear_to_srgb l = Ok e /\ Rabs (e - c) <= 1e-4.
Proof.
  intros Hc. destruct (roundtrip_close c Hc) as (l & e & Hl & _ & He & Hclose).
  exists l, e. repeat split; try assumption. lra.
Qed.

Lemma srgb_roundtrip_witness :
  0 <= 0.5 <= 1 /\
  exists l e,
    srgb_to_linear 0.5 = Ok l /\ linear_to_srgb l = Ok e /\ Rabs (e - 0.5) <= 1e-4.
Proof.
  split; [lra | apply (srgb_roundtrip 0.5); lra].
Defined.

(** C5. With the default (neutral) parameters [grade_color] returns every
    triple of [[0, 1]^3] within 1e-3 in each component. *)
Theorem grade_color_neutral_identity (c : Rgb) :
  in_unit_cube c ->
  exists out, grade_color c default_params = Ok out /\ within 1e-3 out c.
Proof.
  destruct c as [[r g] b]. intros (Hr & Hg & Hb). unfold in_unit in *.
  rewrite grade_color_default.
  destruct (roundtrip_close r Hr) as (lr & er & -> & Hlr & Her & Hcr).
  destruct (roundtrip_close g Hg) as (lg & eg & -> & Hlg & Heg & Hcg).
  destruct (roundtrip_close b Hb) as (lb & eb & -> & Hlb & Heb & Hcb).
  cbn [bind]. rewrite !clamp_inside by assumption.
  rewrite Her, Heg, Heb. cbn [bind].
  eexists. split; [reflexivity |].
  unfold within.
  pose proof (clamp_closer er r Hr). pose proof (clamp_closer eg g Hg).
  pose proof (clamp_closer eb b Hb).
  repeat split; lra.
Qed.

Lemma grade_color_neutral_identity_witness :
  in_unit_cube (0.25, 0.5, 1) /\
  exists out,
    grade_color (0.25, 0.5, 1) default_params = Ok out /\
    within 1e-3 out (0.25, 0.5, 1).
Proof.
  assert (H : in_unit_cube (0.25, 0.5, 1)) by (unfold in_unit_cube, in_unit; lra).
  split; [exact H | apply (grade_color_neutral_identity (0.25, 0.5, 1) H)].
Defined.

End GradeColor.

(** ** The monochrome grade *)

Section GradeBw.
Local Open Scope R_scope.

Lemma grade_bw_unfold (rgb weights : Rgb) (contrast gamma warm_tone : R) :
  grade_bw rgb weights contrast gamma warm_tone =
  (lin <- Stages.decode rgb ;;
   bw_tone (bw_gamma_base lin weights contrast) gamma warm_tone).
Proof.
  destruct rgb as [[r g] b], weights as [[w0 w1] w2].
  unfold grade_bw, Stages.decode, Stages.each_checked.
  destruct (srgb_to_linear r) as [lr | e]; [| reflexivity].
  destruct (srgb_to_linear g) as [lg | e]; [| reflexivity].
  destruct (srgb_to_linear b) as [lb | e]; [| reflexivity].
  reflexivity.
Qed.

Lemma decode_ok (rgb : Rgb) :
  exists lin, Stages.decode rgb = Ok lin /\ in_unit_cube lin.
Proof.
  destruct rgb as [[r g] b]. unfold Stages.decode, Stages.each_checked.
  destruct (srgb_to_linear_ok r) as (lr & -> & Hr).
  destruct (srgb_to_linear_ok g) as (lg & -> & Hg).
  destruct (srgb_to_linear_ok b) as (lb & -> & Hb).
  eexists. split; [reflexivity |]. cbn. unfold in_unit. auto.
Qed.

Lemma bw_gamma_base_range (lin weights : Rgb) (contrast : R) :
  in_unit (bw_gamma_base lin weights contrast).
Proof.
  unfold bw_gamma_base, in_unit. cbv zeta.
  match goal with
  | |- _ <= Py.max (clamp ?v) _ <= _ =>
      pose proof (clamp_range v) as Hc; rewrite max_zero_inside by lra; exact Hc
  end.
Qed.

End GradeBw.

(** ** Which calls can raise *)

Section Totality.
Local Open Scope R_scope.

Lemma pow_unit_total (x y : R) :
  0 <= x <= 1 -> 0 <= y -> exists v, Py.pow x y = Ok v /\ 0 <= v <= 1.
Proof.
  intros Hx Hy. unfold Py.pow.
  destruct (Req_dec_T y 0) as [Hy0 | Hy0]; [exists 1; split; [reflexivity | lra] |].
  destruct (Req_dec_T x 0) as [Hx0 | Hx0].
  { destruct (Rlt_dec y 0); [lra |]. exists 0. split; [reflexivity | lra]. }
  destruct (Rlt_dec x 0); [lra |].
  pose proof (Rpower_unit x y ltac:(lra) Hy) as Hp.
  exists (Rpower x y). split; [| lra].
  apply checked_small. rewrite Rabs_pos_eq; lra.
Qed.

Lemma ten_pow_40_le_DBL_MAX : (10 ^ 4) ^ 10 <= Py.DBL_MAX.
Proof.
  unfold Py.DBL_MAX. rewrite !pow_IZR. apply IZR_le. lia.
Qed.

(** No overflow while the base is below [10^4] and the exponent between 0
    and 10. *)
Lemma pow_moderate (x y : R) :
  0 <= x <= 10 ^ 4 -> 0 <= y <= 10 -> exists v, Py.pow x y = Ok v.
Proof.
  intros Hx Hy. unfold Py.pow.
  destruct (Req_dec_T y 0) as [Hy0 | Hy0]; [eexists; reflexivity |].
  destruct (Req_dec_T x 0) as [Hx0 | Hx0].
  { destruct (Rlt_dec y 0); [lra | eexists; reflexivity]. }
  destruct (Rlt_dec x 0); [lra |].
  unfold Py.checked.
  assert (Hpos : 0 < Rpower x y) by apply exp_pos.
  rewrite Rabs_pos_eq by lra.
  destruct (Rlt_dec Py.DBL_MAX (Rpower x y)) as [Hover | _]; [| eexists; reflexivity].
  exfalso. pose proof ten_pow_40_le_DBL_MAX as Hmax.
  destruct (Rle_dec x 1) as [Hx1 | Hx1].
  - pose proof (Rpower_unit x y ltac:(lra) ltac:(lra)). pose proof one_le_DBL_MAX. lra.
  - assert (Hstep : Rpower x y <= Rpower x (INR 10)).
    { apply Rle_Rpower; [lra |]. simpl. lra. }
    rewrite Rpower_pow in Hstep by lra.
    assert (x ^ 10 <= (10 ^ 4) ^ 10) by (apply pow_incr; lra).
    lra.
Qed.

(** A non-negative base never gives a complex power: the power is
    computed, or raises one of the two arithmetic errors. *)
Lemma pow_nonneg_base (x y : R) :
  0 <= x ->
  (exists v, Py.pow x y = Ok v) \/
  Py.pow x y = Raise ZeroDivisionError \/ Py.pow x y = Raise OverflowError.
Proof.
  intros Hx. unfold Py.pow, Py.checked.
  destruct (Req_dec_T y 0); [left; eexists; reflexivity |].
  destruct (Req_dec_T x 0).
  { destruct (Rlt_dec y 0); [right; left; reflexivity | left; eexists; reflexivity]. }
  destruct (Rlt_dec x 0); [lra |].
  destruct (Rlt_dec Py.DBL_MAX (Rabs (Rpower x y)));
    [right; right; reflexivity | left; eexists; reflexivity].
Qed.

Lemma max_zero_nonneg (v : R) : 0 <= Py.max v 0.
Proof.
  unfold Py.max. split_cmp; lra.
Qed.

Lemma clamp_between_unit (v : R) : clamp_between v 0 1 = clamp v.
Proof.
  unfold clamp. now rewrite lit_zero, lit_one.
Qed.

Lemma encode_ok (c : Rgb) :
  exists out, Stages.encode c = Ok out /\ in_unit_cube out.
Proof.
  destruct c as [[r g] b]. unfold Stages.encode, Stages.each_checked.
  rewrite !clamp_between_unit.
  destruct (linear_to_srgb_ok (clamp r)) as (er & ->).
  destruct (linear_to_srgb_ok (clamp g)) as (eg & ->).
  destruct (linear_to_srgb_ok (clamp b)) as (eb & ->).
  cbn [bind]. rewrite !clamp_between_unit.
  eexists. split; [reflexivity |].
  cbn. unfold in_unit. auto using clamp_range.
Qed.

End Totality.

(** ** Size of the linear values under moderate parameters *)

Section Bounds.
Local Open Scope R_scope.

Variable p : ColorParams.
Hypothesis Hp : moderate p.

Lemma white_balance_bounded (lin : Rgb) :
  in_unit_cube lin -> bounded_by 3.2 (Stages.white_balance p lin).
Proof.
  destruct lin as [[r g] b]. unfold in_unit_cube, in_unit, moderate in *.
  intros (Hr & Hg & Hb). cbn. repeat split; nra.
Qed.

Lemma teal_bias_bounded (B w : R) (c : Rgb) :
  0 <= w <= 1 -> bounded_by B c -> bounded_by (B + 0.4) (Stages.teal_bias p w c).
Proof.
  destruct c as [[r g] b]. unfold moderate in *.
  intros Hw (Hr & Hg & Hb). cbn. repeat split; nra.
Qed.

Lemma saturate_bounded (B : R) (c : Rgb) :
  bounded_by B c -> bounded_by (21 * B) (Stages.saturate p c).
Proof.
  destruct c as [[r g] b]. unfold moderate in *.
  intros (Hr & Hg & Hb). cbn.
  set (y := r * 0.2126 + g * 0.7152 + b * 0.0722).
  assert (Hy : - B <= y <= B) by (unfold y; lra).
  repeat split; nra.
Qed.

Lemma pivot_contrast_bounded (B : R) (c : Rgb) :
  bounded_by B c -> bounded_by (10 * B + 2) (Stages.pivot_contrast p c).
Proof.
  destruct c as [[r g] b]. unfold moderate in *.
  intros (Hr & Hg & Hb). cbn. repeat split; nra.
Qed.

Lemma lift_gain_bounded (B : R) (c : Rgb) :
  bounded_by B c -> bounded_by (10 * (B + 10)) (Stages.lift_gain p c).
Proof.
  destruct c as [[r g] b]. unfold moderate in *.
  intros (Hr & Hg & Hb). cbn. repeat split; nra.
Qed.

Lemma bounded_by_weaken (B B' : R) (c : Rgb) :
  B <= B' -> bounded_by B c -> bounded_by B' c.
Proof.
  destruct c as [[r g] b]. intros HB (Hr & Hg & Hb). cbn. repeat split; lra.
Qed.

Lemma gamma_law_moderate (c : Rgb) :
  bounded_by (10 ^ 4) c -> exists c', Stages.gamma_law p c = Ok c'.
Proof.
  destruct c as [[r g] b]. intros (Hr & Hg & Hb).
  unfold Stages.gamma_law. destruct Rlt_dec; [| eexists; reflexivity].
  assert (Hgam : 0 <= gamma p <= 10) by (unfold moderate in Hp; tauto).
  assert (Hbase : forall v, - 10 ^ 4 <= v <= 10 ^ 4 -> 0 <= Py.max v 0 <= 10 ^ 4).
  { intros v Hv. unfold Py.max. split_cmp; lra. }
  unfold Stages.each_checked.
  destruct (pow_moderate _ _ (Hbase r Hr) Hgam) as (r' & ->).
  destruct (pow_moderate _ _ (Hbase g Hg) Hgam) as (g' & ->).
  destruct (pow_moderate _ _ (Hbase b Hb) Hgam) as (b' & ->).
  eexists. reflexivity.
Qed.

End Bounds.

(** ** Clamp totality *)

Section ClampTotality.
Local Open Scope R_scope.

Lemma bw_tone_ok (base gamma warm_tone lum : R) :
  Py.pow base gamma = Ok lum ->
  exists out, bw_tone base gamma warm_tone = Ok out /\ in_unit_cube out.
Proof.
  intros Hpow. unfold bw_tone. rewrite Hpow. cbn [bind].
  repeat match goal with
  | |- context [linear_to_srgb (clamp ?v)] =>
      let e := fresh "e" in destruct (linear_to_srgb_ok (clamp v)) as (e & ->)
  end.
  cbn [bind]. eexists. split; [reflexivity |].
  cbn. unfold in_unit. auto using clamp_range.
Qed.

Lemma grade_bw_total (rgb weights : Rgb) (contrast gamma warm_tone : R) :
  0 <= gamma ->
  exists out,
    grade_bw rgb weights contrast gamma warm_tone = Ok out /\ in_unit_cube out.
Proof.
  intros Hgamma. rewrite grade_bw_unfold.
  destruct (decode_ok rgb) as (lin & -> & _). cbn [bind].
  destruct (pow_unit_total _ gamma (bw_gamma_base_range lin weights contrast) Hgamma)
    as (lum & Hpow & _).
  exact (bw_tone_ok _ _ warm_tone lum Hpow).
Qed.

Lemma grade_bw_outcomes (rgb weights : Rgb) (contrast gamma warm_tone : R) :
  let res := grade_bw rgb weights contrast gamma warm_tone in
  (exists out, res = Ok out /\ in_unit_cube out) \/
  res = Raise ZeroDivisionError \/ res = Raise OverflowError.
Proof.
  cbv zeta. rewrite grade_bw_unfold.
  destruct (decode_ok rgb) as (lin & -> & _). cbn [bind].
  pose proof (bw_gamma_base_range lin weights contrast) as [Hbase _].
  destruct (pow_nonneg_base _ gamma Hbase) as [(lum & Hpow) | [Hpow | Hpow]].
  - left. exact (bw_tone_ok _ _ warm_tone lum Hpow).
  - right; left. unfold bw_tone. now rewrite Hpow.
  - right; right. unfold bw_tone. now rewrite Hpow.
Qed.

Lemma gamma_law_outcomes (p : ColorParams) (c : Rgb) :
  (exists c', Stages.gamma_law p c = Ok c') \/
  Stages.gamma_law p c = Raise ZeroDivisionError \/
  Stages.gamma_law p c = Raise OverflowError.
Proof.
  destruct c as [[r g] b]. unfold Stages.gamma_law.
  destruct Rlt_dec; [| left; eexists; reflexivity].
  unfold Stages.each_checked.
  destruct (pow_nonneg_base _ (gamma p) (max_zero_nonneg r)) as [(r' & ->) | [-> | ->]];
    [| right; left; reflexivity | right; right; reflexivity].
  destruct (pow_nonneg_base _ (gamma p) (max_zero_nonneg g)) as [(g' & ->) | [-> | ->]];
    [| right; left; reflexivity | right; right; reflexivity].
  destruct (pow_nonneg_base _ (gamma p) (max_zero_nonneg b)) as [(b' & ->) | [-> | ->]];
    [| right; left; reflexivity | right; right; reflexivity].
  left. eexists. reflexivity.
Qed.

Lemma pipeline_after_gamma (rgb : Rgb) (p : ColorParams) :
  exists c,
    grade_color rgb p = (s6 <- Stages.gamma_law p c ;; Stages.encode s6) /\
    (moderate p -> bounded_by (10 ^ 4) c).
Proof.
  rewrite grade_color_as_pipeline. unfold Stages.pipeline.
  destruct (decode_ok rgb) as (lin & -> & Hlin). cbn [bind]. cbv zeta.
  eexists. split; [reflexivity |].
  intros Hp.
  assert (Hw : 0 <= Stages.shadow_weight (rgb_to_luma lin) <= 1).
  { unfold Stages.shadow_weight. rewrite clamp_between_unit. apply clamp_range. }
  pose proof (white_balance_bounded p Hp lin Hlin) as H1.
  pose proof (teal_bias_bounded p Hp _ _ _ Hw H1) as H2.
  pose proof (saturate_bounded p Hp _ _ H2) as H3.
  pose proof (pivot_contrast_bounded p Hp _ _ H3) as H4.
  pose proof (lift_gain_bounded p Hp _ _ H4) as H5.
  eapply bounded_by_weaken; [| exact H5]. lra.
Qed.

Lemma grade_color_total (rgb : Rgb) (p : ColorParams) :
  Rabs (gamma p - 1) <= 1e-6 \/ moderate p ->
  exists out, grade_color rgb p = Ok out /\ in_unit_cube out.
Proof.
  intros Hp. destruct (pipeline_after_gamma rgb p) as (c & -> & Hc).
  assert (Hgam : exists c', Stages.gamma_law p c = Ok c').
  { destruct Hp as [Hnear | Hmod].
    - unfold Stages.gamma_law. destruct Rlt_dec; [lra | eexists; reflexivity].
    - apply gamma_law_moderate; auto. }
  destruct Hgam as (c' & ->). cbn [bind]. apply encode_ok.
Qed.

Lemma grade_color_outcomes (rgb : Rgb) (p : ColorParams) :
  (exists out, grade_color rgb p = Ok out /\ in_unit_cube out) \/
  grade_color rgb p = Raise ZeroDivisionError \/
  grade_color rgb p = Raise OverflowError.
Proof.
  destruct (pipeline_after_gamma rgb p) as (c & -> & _).
  destruct (gamma_law_outcomes p c) as [(c' & ->) | [-> | ->]].
  - left. cbn [bind]. apply encode_ok.
  - right; left; reflexivity.
  - right; right; reflexivity.
Qed.

End ClampTotality.

(** ** Claims on the two grades *)

Section GradingClaims.
Local Open Scope R_scope.

Lemma srgb_to_linear_low (c : R) :
  0 <= c <= 0.04045 -> srgb_to_linear c = Ok (c / 12.92).
Proof.
  intros Hc. unfold srgb_to_linear. rewrite clamp_inside by lra.
  destruct (Rle_dec c 0.04045); [reflexivity | lra].
Qed.

Lemma pow_zero_negative (y : R) : y < 0 -> Py.pow 0 y = Raise ZeroDivisionError.
Proof.
  intros Hy. unfold Py.pow.
  destruct (Req_dec_T y 0); [lra |].
  destruct (Req_dec_T 0 0); [| lra].
  destruct (Rlt_dec y 0); [reflexivity | lra].
Qed.

(** C4, as amended. Whatever the input triple, however far outside
    [[0, 1]]: [grade_bw] returns a triple of [[0, 1]^3] and does not raise
    when [gamma >= 0]; [grade_color] does so when [|gamma - 1| <= 1e-6] or
    when the parameters are moderate; and for every parameter set each of
    the two either returns a triple of [[0, 1]^3] or raises the
    [ZeroDivisionError] or the [OverflowError] of its gamma power. *)
Theorem grading_clamp_totality :
  (forall rgb weights contrast gamma warm_tone,
     0 <= gamma ->
     exists out,
       grade_bw rgb weights contrast gamma warm_tone = Ok out /\ in_unit_cube out) /\
  (forall rgb p,
     Rabs (gamma p - 1) <= 1e-6 \/ moderate p ->
     exists out, grade_color rgb p = Ok out /\ in_unit_cube out) /\
  (forall rgb weights contrast gamma warm_tone,
     (exists out,
        grade_bw rgb weights contrast gamma warm_tone = Ok out /\ in_unit_cube out) \/
     grade_bw rgb weights contrast gamma warm_tone = Raise ZeroDivisionError \/
     grade_bw rgb weights contrast gamma warm_tone = Raise OverflowError) /\
  (forall rgb p,
     (exists out, grade_color rgb p = Ok out /\ in_unit_cube out) \/
     grade_color rgb p = Raise ZeroDivisionError \/
     grade_color rgb p = Raise OverflowError).
Proof.
  split; [| split; [| split]].
  - intros. now apply grade_bw_total.
  - intros. now apply grade_color_total.
  - intros. apply grade_bw_outcomes.
  - intros. apply grade_color_outcomes.
Qed.

Lemma velvia_50_moderate : moderate velvia_50.
Proof.
  unfold moderate, velvia_50. cbn. lra.
Qed.

Lemma grading_clamp_totality_witness :
  (0 <= 1.02 /\ moderate velvia_50) /\
  (exists out,
     grade_bw (5.0, -3.0, 1e9) trix_weights 1.20 1.02 0.06 = Ok out /\
     in_unit_cube out) /\
  (exists out,
     grade_color (5.0, -3.0, 1e9) velvia_50 = Ok out /\ in_unit_cube out).
Proof.
  assert (Hg : 0 <= 1.02) by lra.
  pose proof velvia_50_moderate as Hm.
  destruct grading_clamp_totality as (Hbw & Hcolor & _).
  split; [split; assumption |]. split.
  - apply (Hbw (5.0, -3.0, 1e9) trix_weights 1.20 1.02 0.06 Hg).
  - apply (Hcolor (5.0, -3.0, 1e9) velvia_50 (or_intror Hm)).
Defined.

(** C4 as stated fails: black through a grade with a negative gamma
    raises, in both functions. *)
Lemma negative_gamma_raises :
  grade_color (0, 0, 0) inverse_gamma = Raise ZeroDivisionError /\
  grade_bw (0, 0, 0) trix_weights 1.20 (-1) 0.06 = Raise ZeroDivisionError.
Proof.
  split.
  - unfold grade_color. rewrite (srgb_to_linear_low 0) by lra.
    cbn [bind saturation contrast gamma lift gain warmth cool shadow_teal
         inverse_gamma].
    cbv zeta.
    destruct (Rlt_dec 1e-6 (Rabs (-1 - 1.0))) as [_ | Hg].
    2:{ exfalso. apply Hg. unfold Rabs. destruct Rcase_abs; lra. }
    match goal with
    | |- context [Py.pow (Py.max ?a ?z) (-1)] =>
        replace (Py.max a z) with 0
          by (unfold Py.max, rgb_to_luma; split_cmp; lra)
    end.
    rewrite pow_zero_negative by lra. reflexivity.
  - unfold grade_bw, trix_weights. rewrite (srgb_to_linear_low 0) by lra.
    cbn [bind]. cbv zeta.
    match goal with
    | |- context [Py.pow (Py.max ?a ?z) (-1)] =>
        replace (Py.max a z) with 0
    end.
    + rewrite pow_zero_negative by lra. reflexivity.
    + rewrite (clamp_low (0 / 12.92 * 0.32 + 0 / 12.92 * 0.56 + 0 / 12.92 * 0.12))
        by lra.
      rewrite clamp_low by lra. unfold Py.max. split_cmp; lra.
Qed.

Lemma grade_bw_gray (rgb weights : Rgb) (contrast gamma : R) :
  exists m : result R,
    grade_bw rgb weights contrast gamma 0 = (v <- m ;; Ok (v, v, v)).
Proof.
  rewrite grade_bw_unfold.
  destruct (Stages.decode rgb) as [lin | e]; [| exists (Raise e); reflexivity].
  cbn [bind]. unfold bw_tone.
  destruct (Py.pow (bw_gamma_base lin weights contrast) gamma) as [lum | e];
    [| exists (Raise e); reflexivity].
  cbn [bind].
  replace (lum * (1.0 + 0 * 0.025)) with lum by lra.
  replace (lum * (1.0 + 0 * 0.008)) with lum by lra.
  replace (lum * (1.0 - 0 * 0.02)) with lum by lra.
  destruct (linear_to_srgb (clamp lum)) as [e | e].
  - exists (Ok (clamp e)). reflexivity.
  - exists (Raise e). reflexivity.
Qed.


(** C9, as amended. With [warm_tone = 0] the three returned components
    are one and the same value: whatever the input, the weights, the
    contrast and the gamma, a triple that [grade_bw] returns is
    [(v, v, v)]; and it does return one, with [v] in [[0, 1]], when
    [gamma >= 0]. *)
Theorem grade_bw_neutral_gray (rgb weights : Rgb) (contrast gamma : R) :
  (forall r g b,
     grade_bw rgb weights contrast gamma 0 = Ok (r, g, b) -> r = g /\ g = b) /\
  (0 <= gamma ->
   exists v, grade_bw rgb weights contrast gamma 0 = Ok (v, v, v) /\ in_unit v).
Proof.
  destruct (grade_bw_gray rgb weights contrast gamma) as (m & Hm).
  split.
  - intros r g b Hres. rewrite Hm in Hres.
    destruct m as [v | e]; cbn in Hres; [| discriminate].
    injection Hres as <- <- <-. auto.
  - intros Hgamma.
    destruct (grade_bw_total rgb weights contrast gamma 0 Hgamma)
      as (out & Hout & Hunit).
    rewrite Hm in Hout. destruct m as [v | e]; cbn in Hout; [| discriminate].
    injection Hout as <-. exists v. rewrite Hm. split; [reflexivity |].
    cbn in Hunit. tauto.
Qed.

Lemma grade_bw_neutral_gray_witness :
  0 <= 1.02 /\
  exists v,
    grade_bw (5.0, -3.0, 1e9) trix_weights 1.20 1.02 0 = Ok (v, v, v) /\ in_unit v.
Proof.
  assert (Hg : 0 <= 1.02) by lra.
  split; [exact Hg |].
  exact (proj2 (grade_bw_neutral_gray (5.0, -3.0, 1e9) trix_weights 1.20 1.02) Hg).
Defined.

(** C9 as stated fails: with [warm_tone = 0] and a negative gamma, black
    has no output triple at all, the gamma power of the zero luma raises. *)
Lemma grade_bw_neutral_black_raises :
  grade_bw (0, 0, 0) trix_weights 1.20 (-1) 0 = Raise ZeroDivisionError.
Proof.
  unfold grade_bw, trix_weights. rewrite (srgb_to_linear_low 0) by lra.
  cbn [bind]. cbv zeta.
  match goal with
  | |- context [Py.pow (Py.max ?a ?z) (-1)] =>
      replace (Py.max a z) with 0
  end.
  - rewrite pow_zero_negative by lra. reflexivity.
  - rewrite (clamp_low (0 / 12.92 * 0.32 + 0 / 12.92 * 0.56 + 0 / 12.92 * 0.12))
      by lra.
    rewrite clamp_low by lra. unfold Py.max. split_cmp; lra.
Qed.

(** C10. In [grade_bw] the weighted luma is clamped to [[0, 1]] right
    after the weighted sum and again after the contrast, so the base of
    the gamma power lies in [[0, 1]]; hence two inputs whose weighted luma
    both reach 1, or both stay at or below 0, give the same outcome under
    the same parameters. *)
Theorem grade_bw_luma_clamped (weights : Rgb) (contrast gamma warm_tone : R) :
  (forall rgb,
     grade_bw rgb weights contrast gamma warm_tone =
     (lin <- Stages.decode rgb ;;
      bw_tone (bw_gamma_base lin weights contrast) gamma warm_tone)) /\
  (forall lin,
     in_unit (clamp (bw_weighted_luma lin weights)) /\
     in_unit (bw_gamma_base lin weights contrast)) /\
  (forall rgb1 rgb2 lin1 lin2,
     Stages.decode rgb1 = Ok lin1 ->
     Stages.decode rgb2 = Ok lin2 ->
     (1 <= bw_weighted_luma lin1 weights /\ 1 <= bw_weighted_luma lin2 weights) \/
     (bw_weighted_luma lin1 weights <= 0 /\ bw_weighted_luma lin2 weights <= 0) ->
     grade_bw rgb1 weights contrast gamma warm_tone =
     grade_bw rgb2 weights contrast gamma warm_tone).
Proof.
  split; [| split].
  - intros rgb. apply grade_bw_unfold.
  - intros lin. split; [apply clamp_range | apply bw_gamma_base_range].
  - intros rgb1 rgb2 lin1 lin2 H1 H2 Hluma.
    rewrite !grade_bw_unfold, H1, H2. cbn [bind]. f_equal.
    unfold bw_gamma_base. cbv zeta.
    destruct Hluma as [[Ha Hb] | [Ha Hb]].
    + now rewrite (clamp_high _ Ha), (clamp_high _ Hb).
    + now rewrite (clamp_low _ Ha), (clamp_low _ Hb).
Qed.

Lemma grade_bw_luma_clamped_witness :
  grade_bw (0.04, 0, 0) (1000, 0, 0) 1.20 1.02 0.06 =
  grade_bw (0.03, 0, 0) (1000, 0, 0) 1.20 1.02 0.06.
Proof.
  destruct (grade_bw_luma_clamped (1000, 0, 0) 1.20 1.02 0.06) as (_ & _ & Hsame).
  apply (Hsame (0.04, 0, 0) (0.03, 0, 0)
           (0.04 / 12.92, 0 / 12.92, 0 / 12.92) (0.03 / 12.92, 0 / 12.92, 0 / 12.92)).
  - unfold Stages.decode, Stages.each_checked.
    rewrite (srgb_to_linear_low 0.04), (srgb_to_linear_low 0) by lra. reflexivity.
  - unfold Stages.decode, Stages.each_checked.
    rewrite (srgb_to_linear_low 0.03), (srgb_to_linear_low 0) by lra. reflexivity.
  - left. cbn. lra.
Defined.

End GradingClaims.

(** ** The cube sampler *)

Section SamplerFacts.
Local Open Scope Z_scope.

Lemma update_length {A : Type} (l : list A) (i : nat) (v : A) :
  List.length (Py.update l i v) = List.length l.
Proof.
  revert i. induction l as [| a l IH]; intros [| i]; cbn; auto.
Qed.

Lemma byte_of_int_some (v : Z) :
  0 <= v <= 255 -> exists b, Py.byte_of_int v = Some b.
Proof.
  intros Hv. unfold Py.byte_of_int.
  destruct (Z.ltb_spec v 0); [lia |].
  destruct (Byte.of_N (Z.to_N v)) as [b |] eqn:Hb; [now exists b |].
  apply Byte.of_N_None_iff in Hb. lia.
Qed.

Lemma setitem_ok (buf : list byte) (i v : Z) :
  0 <= i < Py.len buf -> 0 <= v <= 255 ->
  exists buf', Py.setitem buf i v = Ok buf' /\ Py.len buf' = Py.len buf.
Proof.
  intros Hi Hv. unfold Py.setitem.
  destruct (byte_of_int_some v Hv) as (b & ->).
  destruct (Z.ltb_spec i 0); [lia |].
  destruct (Z.ltb_spec i 0); [lia |].
  destruct (Z.leb_spec (Py.len buf) i); [lia |].
  cbn. eexists. split; [reflexivity |].
  unfold Py.len. now rewrite update_length.
Qed.

Lemma round_range (x : R) : (0 <= x <= 255)%R -> 0 <= Py.round x <= 255.
Proof.
  intros Hx. unfold Py.round.
  destruct (base_Int_part x) as [Hlo Hhi].
  set (f := Int_part x) in *.
  assert (Hf0 : 0 <= f).
  { assert (-1 < f); [| lia]. apply lt_IZR. lra. }
  assert (Hf255 : f <= 255) by (apply le_IZR; lra).
  destruct (Rlt_dec (x - IZR f) (1 / 2)); [lia |].
  assert (f <> 255).
  { intros Heq. rewrite Heq in *. lra. }
  destruct (Rlt_dec (1 / 2) (x - IZR f)); [lia |].
  destruct (Z.even f); lia.
Qed.

Lemma quantize_range (v : R) : 0 <= quantize v <= 255.
Proof.
  unfold quantize. apply round_range.
  pose proof (clamp_range v). lra.
Qed.

Lemma range_bounds (n i : Z) : In i (Py.range n) -> 0 <= i < n.
Proof.
  unfold Py.range. rewrite in_map_iff. intros (k & <- & Hk).
  apply in_seq in Hk. lia.
Qed.

Lemma for_each_invariant {I S : Type} (P : S -> Prop) (body : I -> S -> result S)
  (xs : list I) :
  (forall i s, In i xs -> P s -> exists s', body i s = Ok s' /\ P s') ->
  forall s, P s -> exists s', for_each body xs s = Ok s' /\ P s'.
Proof.
  induction xs as [| x xs IH]; intros Hbody s Hs.
  - exists s. split; [reflexivity | exact Hs].
  - destruct (Hbody x s (or_introl eq_refl) Hs) as (s1 & Hs1 & HP1).
    cbn. rewrite Hs1. cbn.
    apply IH; [| exact HP1].
    intros i s0 Hi. apply Hbody. now right.
Qed.

Lemma pixel_position_value (width index : Z) :
  width <> 0 -> pixel_position width index = Ok (index mod width, index / width).
Proof.
  intros Hw. unfold pixel_position, Py.mod_, Py.floordiv.
  destruct (Z.eqb_spec width 0); [contradiction | reflexivity].
Qed.

Lemma cube_index_value (size index : Z) :
  size <> 0 ->
  cube_index size index =
  Ok (index mod size, (index / size) mod size, index / (size * size)).
Proof.
  intros Hs. unfold cube_index, Py.mod_, Py.floordiv.
  destruct (Z.eqb_spec size 0); [contradiction |].
  destruct (Z.eqb_spec (size * size) 0); [lia | reflexivity].
Qed.

Lemma bytearray_ok (n : Z) :
  0 <= n <= Py.maxsize -> Py.bytearray n = Ok (repeat x00 (Z.to_nat n)).
Proof.
  intros Hn. unfold Py.bytearray.
  destruct (Z.ltb_spec n 0); [lia |].
  destruct (Z.ltb_spec Py.maxsize n); [lia | reflexivity].
Qed.

(** A level whose buffer fits an index has a size that converts to a
    float. *)
Lemma size_converts (level : Z) :
  2 <= level -> hald_width level * hald_width level * 4 <= Py.maxsize ->
  (IZR (hald_size level - 1) <= Py.DBL_MAX)%R.
Proof.
  intros Hlevel Hroom. unfold Py.DBL_MAX. apply IZR_le.
  assert (Hcells : hald_width level * hald_width level =
                   hald_size level * hald_size level * hald_size level)
    by (unfold hald_width, hald_size; ring).
  assert (Hsize : 4 <= hald_size level) by (unfold hald_size; nia).
  assert (1 <= hald_size level * hald_size level) by nia.
  assert (hald_size level <= hald_width level * hald_width level * 4)
    by (rewrite Hcells; nia).
  unfold Py.maxsize in Hroom. lia.
Qed.

End SamplerFacts.

Section SamplerClaims.
Local Open Scope Z_scope.

Variable transform : Rgb -> result Rgb.

Lemma hald_cell_ok (size width : Z) (denom : R) (index : Z) (out : list byte) :
  size <> 0 -> 0 < width -> denom <> 0%R ->
  (forall c, returns (transform c)) ->
  0 <= index -> index * 4 + 3 < Py.len out ->
  exists out',
    hald_cell transform size width denom index out = Ok out' /\
    Py.len out' = Py.len out.
Proof.
  intros Hsize Hwidth Hdenom Htotal Hindex Hroom. unfold hald_cell.
  rewrite cube_index_value by assumption. cbn [bind].
  unfold Py.truediv. destruct (Req_dec_T denom 0) as [| _]; [contradiction |].
  cbn [bind].
  match goal with
  | |- context [transform ?c] => destruct (Htotal c) as ([[r g] b] & ->)
  end.
  cbn [bind]. rewrite pixel_position_value by lia. cbn [bind].
  replace (index / width * width + index mod width) with index
    by (rewrite (Z.div_mod index width) at 1; lia).
  destruct (setitem_ok out (index * 4 + 0) (quantize r) ltac:(lia) (quantize_range r))
    as (out1 & -> & H1). cbn [bind].
  destruct (setitem_ok out1 (index * 4 + 1) (quantize g) ltac:(lia) (quantize_range g))
    as (out2 & -> & H2). cbn [bind].
  destruct (setitem_ok out2 (index * 4 + 2) (quantize b) ltac:(lia) (quantize_range b))
    as (out3 & -> & H3). cbn [bind].
  destruct (setitem_ok out3 (index * 4 + 3) 255 ltac:(lia) ltac:(lia))
    as (out4 & -> & H4).
  exists out4. split; [reflexivity | lia].
Qed.

(** The buffer has the size the encoder checks for, [width * height * 4]
    with [width = height = hald_width level]. *)
Lemma generate_hald_lut_returns (level : Z) :
  2 <= level ->
  hald_width level * hald_width level * 4 <= Py.maxsize ->
  (forall c, returns (transform c)) ->
  exists out,
    generate_hald_lut transform level = Ok out /\
    Py.len out = hald_width level * hald_width level * 4.
Proof.
  intros Hlevel Hroom Htotal.
  pose proof (size_converts level Hlevel Hroom) as Hfloat.
  unfold generate_hald_lut. cbv zeta.
  assert (Hsize : 4 <= hald_size level) by (unfold hald_size; nia).
  assert (Hwidth : 0 < hald_width level) by (unfold hald_width; nia).
  assert (Hcells : hald_size level * hald_size level * hald_size level =
                   hald_width level * hald_width level)
    by (unfold hald_width, hald_size; ring).
  rewrite bytearray_ok by nia.
  cbn [bind]. unfold Py.float_of_int.
  assert (Hdenom : (3 <= IZR (hald_size level - 1))%R) by (apply IZR_le; lia).
  rewrite Rabs_pos_eq by lra.
  destruct Rlt_dec as [| _]; [lra |]. cbn [bind].
  set (out0 := repeat x00 (Z.to_nat (hald_width level * hald_width level * 4))).
  assert (Hlen0 : Py.len out0 = hald_width level * hald_width level * 4).
  { unfold Py.len, out0. rewrite repeat_length. lia. }
  destruct (for_each_invariant (fun out => Py.len out = Py.len out0)
              (hald_cell transform (hald_size level) (hald_width level)
                 (IZR (hald_size level - 1)))
              (Py.range (hald_size level * hald_size level * hald_size level)))
    with (s := out0) as (out & Hout & Hlen).
  - intros index buf Hin Hbuf. apply range_bounds in Hin.
    destruct (hald_cell_ok (hald_size level) (hald_width level)
                (IZR (hald_size level - 1)) index buf)
      as (buf' & Hcell & Hlen'); try assumption; try lia; try lra.
    exists buf'. split; [exact Hcell | lia].
  - reflexivity.
  - exists out. split; [exact Hout | lia].
Qed.

(** C2, as amended. For every level of at least 2 whose buffer size
    [width * height * 4] does not exceed [sys.maxsize], and every transform
    that returns on every colour, [generate_hald_lut] returns, without
    raising, a buffer of [level^3 * level^3 * 4] bytes. *)
Theorem generate_hald_lut_length (level : Z) :
  2 <= level ->
  hald_width level * hald_width level * 4 <= Py.maxsize ->
  (forall c, returns (transform c)) ->
  exists out,
    generate_hald_lut transform level = Ok out /\
    Py.len out = level ^ 3 * level ^ 3 * 4.
Proof.
  intros Hlevel Hroom Htotal.
  destruct (generate_hald_lut_returns level Hlevel Hroom Htotal) as (out & Hout & Hlen).
  exists out. split; [exact Hout |].
  rewrite Hlen. unfold hald_width, hald_size. ring.
Qed.

(** C2 as stated fails at level 1: [size - 1] is zero and the first cell
    divides by it. *)
Lemma generate_hald_lut_level_1 :
  generate_hald_lut transform 1 = Raise ZeroDivisionError.
Proof.
  unfold generate_hald_lut, hald_width, hald_size. cbv zeta.
  change (1 * (1 * 1) * (1 * (1 * 1)) * 4) with 4.
  change (1 * 1 * (1 * 1) * (1 * 1)) with 1.
  change (1 * 1 - 1) with 0.
  rewrite bytearray_ok by (unfold Py.maxsize; lia). cbn [bind].
  unfold Py.float_of_int. rewrite Rabs_R0.
  destruct Rlt_dec as [Hbig | _].
  { exfalso. pose proof one_le_DBL_MAX. lra. }
  cbn [bind]. change (Py.range 1) with [0]. cbn [for_each].
  unfold hald_cell. rewrite cube_index_value by lia. cbn [bind].
  unfold Py.truediv. destruct (Req_dec_T 0 0) as [_ | Hne]; [| contradiction].
  reflexivity.
Qed.

End SamplerClaims.

Section SamplerExamples.
Local Open Scope Z_scope.

Lemma transform_trix_400_returns (c : Rgb) : returns (transform_trix_400 c).
Proof.
  unfold transform_trix_400.
  destruct (grade_bw_total c trix_weights 1.20 1.02 0.06 ltac:(lra)) as (out & Hout & _).
  now exists out.
Qed.

Lemma generate_hald_lut_length_witness :
  (2 <= 2 /\ hald_width 2 * hald_width 2 * 4 <= Py.maxsize /\
   forall c, returns (transform_trix_400 c)) /\
  exists out,
    generate_hald_lut transform_trix_400 2 = Ok out /\ Py.len out = 2 ^ 3 * 2 ^ 3 * 4.
Proof.
  assert (Hlevel : 2 <= 2) by lia.
  assert (Hroom : hald_width 2 * hald_width 2 * 4 <= Py.maxsize)
    by (unfold hald_width, hald_size, Py.maxsize; lia).
  split; [split; [exact Hlevel | split; [exact Hroom | exact transform_trix_400_returns]] |].
  exact (generate_hald_lut_length transform_trix_400 2 Hlevel Hroom
           transform_trix_400_returns).
Defined.

(** The counterexample at a concrete transform. *)
Lemma hald_level_1_raises :
  0 < 1 /\ (forall c, returns (transform_trix_400 c)) /\
  generate_hald_lut transform_trix_400 1 = Raise ZeroDivisionError.
Proof.
  split; [lia |]. split; [exact transform_trix_400_returns |].
  apply generate_hald_lut_level_1.
Qed.

(** C7. At level 2 the size is 4 and the width 8; the map from an index to
    its pixel, [idx -> (idx mod 8, idx / 8)], sends the indices 0..63 into
    [[0,8) x [0,8)], one to one and onto; and index 5 has the cube
    coordinates (1, 1, 0). *)
Theorem hald_level_2_bijection :
  hald_size 2 = 4 /\ hald_width 2 = 8 /\
  hald_size 2 * hald_size 2 * hald_size 2 = 64 /\
  (forall idx, 0 <= idx < 64 ->
     pixel_position (hald_width 2) idx = Ok (idx mod 8, idx / 8) /\
     0 <= idx mod 8 < 8 /\ 0 <= idx / 8 < 8) /\
  (forall i j, 0 <= i < 64 -> 0 <= j < 64 ->
     pixel_position (hald_width 2) i = pixel_position (hald_width 2) j -> i = j) /\
  (forall x y, 0 <= x < 8 -> 0 <= y < 8 ->
     exists idx, 0 <= idx < 64 /\ pixel_position (hald_width 2) idx = Ok (x, y)) /\
  cube_index (hald_size 2) 5 = Ok (1, 1, 0).
Proof.
  change (hald_size 2) with 4. change (hald_width 2) with 8.
  split; [reflexivity |]. split; [reflexivity |]. split; [reflexivity |].
  split; [| split; [| split]].
  - intros idx Hidx. rewrite pixel_position_value by lia.
    split; [reflexivity |].
    pose proof (Z.mod_pos_bound idx 8 ltac:(lia)).
    split; [lia |].
    split; [apply Z.div_pos; lia | apply Z.div_lt_upper_bound; lia].
  - intros i j Hi Hj. rewrite !pixel_position_value by lia.
    intros Heq. injection Heq as Hmod Hdiv.
    rewrite (Z.div_mod i 8), (Z.div_mod j 8) by lia. congruence.
  - intros x y Hx Hy. exists (y * 8 + x). split; [lia |].
    rewrite pixel_position_value by lia. f_equal. f_equal.
    + rewrite Z.add_comm, Z.mod_add by lia. apply Z.mod_small. lia.
    + rewrite Z.add_comm, Z.div_add by lia. rewrite Z.div_small by lia. lia.
  - reflexivity.
Qed.

Lemma hald_level_2_bijection_witness :
  0 <= 13 < 64 /\
  pixel_position (hald_width 2) 13 = Ok (13 mod 8, 13 / 8).
Proof.
  assert (H : 0 <= 13 < 64) by lia.
  split; [exact H |].
  destruct hald_level_2_bijection as (_ & _ & _ & Hpos & _).
  exact (proj1 (Hpos 13 H)).
Defined.

End SamplerExamples.

(** ** The PNG writer *)

Section Packing.
Local Open Scope Z_scope.

Lemma byte_of_int_value (v : Z) (b : byte) :
  Py.byte_of_int v = Some b -> Z.of_N (Byte.to_N b) = v.
Proof.
  unfold Py.byte_of_int. destruct (Z.ltb_spec v 0); [discriminate |].
  intros Hb. apply Byte.to_of_N in Hb. lia.
Qed.

Lemma pack_I_ok (n : Z) :
  fits_uint32 n ->
  exists bs, Py.pack_I n = Ok bs /\ List.length bs = 4%nat /\ be_value bs = n.
Proof.
  unfold fits_uint32. intros Hn. unfold Py.pack_I.
  destruct (Z.ltb_spec n 0) as [| _]; [lia |].
  destruct (Z.ltb_spec 4294967295 n) as [| _]; [lia |]. cbn [orb].
  change 255 with (Z.ones 8). rewrite !Z.land_ones, !Z.shiftr_div_pow2 by lia.
  assert (Hb3 : 0 <= n / 2 ^ 24 <= 255).
  { pose proof (Z.div_pos n (2 ^ 24) ltac:(lia) ltac:(lia)).
    pose proof (Z.div_lt_upper_bound n (2 ^ 24) 256 ltac:(lia) ltac:(lia)). lia. }
  assert (Hb2 : 0 <= (n / 2 ^ 16) mod 2 ^ 8 <= 255)
    by (pose proof (Z.mod_pos_bound (n / 2 ^ 16) (2 ^ 8)); lia).
  assert (Hb1 : 0 <= (n / 2 ^ 8) mod 2 ^ 8 <= 255)
    by (pose proof (Z.mod_pos_bound (n / 2 ^ 8) (2 ^ 8)); lia).
  assert (Hb0 : 0 <= n mod 2 ^ 8 <= 255)
    by (pose proof (Z.mod_pos_bound n (2 ^ 8)); lia).
  destruct (byte_of_int_some _ Hb3) as (b3 & E3).
  destruct (byte_of_int_some _ Hb2) as (b2 & E2).
  destruct (byte_of_int_some _ Hb1) as (b1 & E1).
  destruct (byte_of_int_some _ Hb0) as (b0 & E0).
  rewrite E3, E2, E1, E0.
  exists [b3; b2; b1; b0]. split; [reflexivity |]. split; [reflexivity |].
  unfold be_value. cbn [fold_left].
  rewrite (byte_of_int_value _ _ E3), (byte_of_int_value _ _ E2),
    (byte_of_int_value _ _ E1), (byte_of_int_value _ _ E0).
  clear - Hn. Z.div_mod_to_equations. lia.
Qed.

Lemma pack_I_refused (n : Z) : ~ fits_uint32 n -> Py.pack_I n = Raise StructError.
Proof.
  unfold fits_uint32. intros Hn. unfold Py.pack_I.
  destruct (Z.ltb_spec n 0); [reflexivity |].
  destruct (Z.ltb_spec 4294967295 n); [reflexivity | lia].
Qed.

Lemma fits_uint32_dec (n : Z) : {fits_uint32 n} + {~ fits_uint32 n}.
Proof.
  unfold fits_uint32.
  destruct (Z_le_dec 0 n); [| right; lia].
  destruct (Z_le_dec n 4294967295); [left; lia | right; lia].
Qed.

Lemma pack_header (width height : Z) :
  fits_uint32 width -> fits_uint32 height ->
  exists ihdr,
    Py.pack_IIBBBBB width height 8 6 0 0 0 = Ok ihdr /\
    header_layout width height ihdr /\ Py.len ihdr = 13.
Proof.
  intros Hw Hh. unfold Py.pack_IIBBBBB.
  destruct (pack_I_ok width Hw) as (w4 & -> & Lw & Vw).
  destruct (pack_I_ok height Hh) as (h4 & -> & Lh & Vh).
  cbn. eexists. split; [reflexivity |]. split.
  - constructor. exists w4, h4. auto.
  - unfold Py.len. rewrite !length_app, Lw, Lh. reflexivity.
Qed.

Lemma pack_header_refused (width height : Z) :
  ~ (fits_uint32 width /\ fits_uint32 height) ->
  Py.pack_IIBBBBB width height 8 6 0 0 0 = Raise StructError.
Proof.
  intros Hno. unfold Py.pack_IIBBBBB.
  destruct (fits_uint32_dec width) as [Hw | Hw].
  - destruct (pack_I_ok width Hw) as (w4 & -> & _). cbn [bind].
    rewrite pack_I_refused by tauto. reflexivity.
  - now rewrite pack_I_refused.
Qed.

End Packing.

Section EncoderFacts.
Local Open Scope Z_scope.

Variable zlib_crc32 : list byte -> Z.
Variable zlib_compress : list byte -> Z -> list byte.

Lemma masked_crc_fits (data : list byte) :
  fits_uint32 (Z.land (zlib_crc32 data) 0xFFFFFFFF).
Proof.
  assert (Hmask : Z.land (zlib_crc32 data) 0xFFFFFFFF = zlib_crc32 data mod 2 ^ 32).
  { change 0xFFFFFFFF with (Z.ones 32). apply Z.land_ones. lia. }
  rewrite Hmask. unfold fits_uint32.
  pose proof (Z.mod_pos_bound (zlib_crc32 data) (2 ^ 32) ltac:(lia)). lia.
Qed.

Lemma chunk_ok (tag payload : list byte) :
  List.length tag = 4%nat -> fits_uint32 (Py.len payload) ->
  exists c,
    chunk zlib_crc32 tag payload = Ok c /\ chunk_layout zlib_crc32 tag payload c.
Proof.
  intros Htag Hlen. unfold chunk. cbv zeta.
  destruct (pack_I_ok _ Hlen) as (len4 & -> & Ll & Vl).
  destruct (pack_I_ok _ (masked_crc_fits (tag ++ payload))) as (crc4 & -> & Lc & Vc).
  cbn [bind]. eexists. split; [reflexivity |].
  constructor; [| exact Htag].
  exists len4, crc4. auto.
Qed.

Lemma chunk_refused (tag payload : list byte) :
  ~ fits_uint32 (Py.len payload) ->
  chunk zlib_crc32 tag payload = Raise StructError.
Proof.
  intros Hlen. unfold chunk. cbv zeta. now rewrite pack_I_refused.
Qed.

Lemma empty_fits : fits_uint32 (Py.len (@nil byte)).
Proof. unfold fits_uint32, Py.len. cbn. lia. Qed.

(** The three ways a call can end. *)
Lemma write_png_rgba_cases (path : string) (width height : Z) (rgba : list byte)
  (fs : filesystem) :
  let res := write_png_rgba zlib_crc32 zlib_compress path width height rgba fs in
  let idat := zlib_compress (filter_rows width height rgba) 9 in
  (Py.len rgba <> width * height * 4 /\ res = (Raise size_mismatch, fs)) \/
  (Py.len rgba = width * height * 4 /\
   ~ (fits_uint32 width /\ fits_uint32 height /\ fits_uint32 (Py.len idat)) /\
   res = (Raise StructError, fs)) \/
  (Py.len rgba = width * height * 4 /\
   fits_uint32 width /\ fits_uint32 height /\ fits_uint32 (Py.len idat) /\
   exists ihdr c1 c2 c3,
     res = (Ok tt, write_bytes path (png_signature ++ c1 ++ c2 ++ c3) fs) /\
     header_layout width height ihdr /\
     chunk_layout zlib_crc32 IHDR ihdr c1 /\
     chunk_layout zlib_crc32 IDAT idat c2 /\
     chunk_layout zlib_crc32 IEND [] c3).
Proof.
  cbv zeta. unfold write_png_rgba.
  destruct (Z.eqb_spec (Py.len rgba) (width * height * 4)) as [Hlen | Hlen];
    cbn [negb]; [| left; split; [exact Hlen | reflexivity]].
  right. cbv zeta.
  set (idat := zlib_compress (filter_rows width height rgba) 9).
  destruct (fits_uint32_dec width) as [Hw | Hw].
  2:{ left. rewrite pack_header_refused by tauto. repeat split; tauto. }
  destruct (fits_uint32_dec height) as [Hh | Hh].
  2:{ left. rewrite pack_header_refused by tauto. repeat split; tauto. }
  destruct (pack_header width height Hw Hh) as (ihdr & -> & Hhdr & Hlen13).
  cbn [bind].
  destruct (chunk_ok IHDR ihdr eq_refl) as (c1 & -> & Hc1).
  { unfold fits_uint32. lia. }
  cbn [bind].
  destruct (fits_uint32_dec (Py.len idat)) as [Hd | Hd].
  2:{ left. rewrite chunk_refused by exact Hd. repeat split; tauto. }
  destruct (chunk_ok IDAT idat eq_refl Hd) as (c2 & -> & Hc2). cbn [bind].
  destruct (chunk_ok IEND [] eq_refl empty_fits) as (c3 & -> & Hc3). cbn [bind].
  right. do 4 (split; [assumption |]).
  exists ihdr, c1, c2, c3. auto.
Qed.

(** C3, as amended. When the buffer length is [width * height * 4] and
    width, height and the length of the compressed data fit in 32 unsigned
    bits, the file written is the 8-byte signature followed by exactly
    three chunks, IHDR, IDAT, IEND in this order; each chunk is a 4-byte
    big-endian payload length, the 4-byte tag, the payload, and the 4-byte
    big-endian CRC-32 of tag and payload; the IHDR payload is the width and
    the height, 4 bytes big-endian each, then the bytes 8, 6, 0, 0, 0. *)
Theorem write_png_rgba_container (path : string) (width height : Z)
  (rgba : list byte) (fs : filesystem) :
  Py.len rgba = width * height * 4 ->
  fits_uint32 width -> fits_uint32 height ->
  fits_uint32 (Py.len (zlib_compress (filter_rows width height rgba) 9)) ->
  exists ihdr c1 c2 c3,
    write_png_rgba zlib_crc32 zlib_compress path width height rgba fs =
      (Ok tt, write_bytes path (png_signature ++ c1 ++ c2 ++ c3) fs) /\
    List.length png_signature = 8%nat /\
    header_layout width height ihdr /\
    chunk_layout zlib_crc32 IHDR ihdr c1 /\
    chunk_layout zlib_crc32 IDAT (zlib_compress (filter_rows width height rgba) 9) c2 /\
    chunk_layout zlib_crc32 IEND [] c3.
Proof.
  intros Hlen Hw Hh Hd.
  destruct (write_png_rgba_cases path width height rgba fs)
    as [(Hno & _) | [(_ & Hno & _) | (_ & _ & _ & _ & ihdr & c1 & c2 & c3 & Hres)]].
  - contradiction.
  - tauto.
  - exists ihdr, c1, c2, c3. intuition.
Qed.

(** C8, as amended. The size-mismatch [ValueError] is raised exactly when
    the buffer length is not [width * height * 4]; the one other error is
    [struct.error], raised exactly when the lengths agree but the width,
    the height or the length of the compressed data does not fit in 32
    unsigned bits; whenever the call raises, no file is written. *)
Theorem write_png_rgba_errors (path : string) (width height : Z)
  (rgba : list byte) (fs : filesystem) :
  let res := write_png_rgba zlib_crc32 zlib_compress path width height rgba fs in
  let idat := zlib_compress (filter_rows width height rgba) 9 in
  (fst res = Raise size_mismatch <-> Py.len rgba <> width * height * 4) /\
  (fst res = Raise StructError <->
   Py.len rgba = width * height * 4 /\
   ~ (fits_uint32 width /\ fits_uint32 height /\ fits_uint32 (Py.len idat))) /\
  (forall e, fst res = Raise e -> e = size_mismatch \/ e = StructError) /\
  (forall e, fst res = Raise e -> snd res = fs) /\
  (fst res = Ok tt -> exists data, snd res = write_bytes path data fs).
Proof.
  cbv zeta.
  destruct (write_png_rgba_cases path width height rgba fs)
    as [(Hlen & ->) | [(Hlen & Hno & ->) | (Hlen & Hw & Hh & Hd & ihdr & c1 & c2 & c3 & -> & _)]];
    cbn [fst snd]; unfold size_mismatch.
  - repeat split; intros; try tauto; try discriminate; try congruence.
    left. congruence.
  - repeat split; intros; try tauto; try discriminate; try congruence.
    right. congruence.
  - repeat split; intros; try tauto; try discriminate; try congruence.
    eexists. reflexivity.
Qed.

End EncoderFacts.

Section EncoderExamples.
Local Open Scope Z_scope.

Lemma white_2x2_compressed_length :
  Py.len (stored (filter_rows 2 2 white_2x2) 9) = 18.
Proof. vm_compute. reflexivity. Qed.

Lemma write_png_rgba_container_witness :
  (Py.len white_2x2 = 2 * 2 * 4 /\ fits_uint32 2 /\
   fits_uint32 (Py.len (stored (filter_rows 2 2 white_2x2) 9))) /\
  exists ihdr c1 c2 c3,
    write_png_rgba crc32 stored "white.png" 2 2 white_2x2 [] =
      (Ok tt, write_bytes "white.png" (png_signature ++ c1 ++ c2 ++ c3) []) /\
    List.length png_signature = 8%nat /\
    header_layout 2 2 ihdr /\
    chunk_layout crc32 IHDR ihdr c1 /\
    chunk_layout crc32 IDAT (stored (filter_rows 2 2 white_2x2) 9) c2 /\
    chunk_layout crc32 IEND [] c3.
Proof.
  assert (Hlen : Py.len white_2x2 = 2 * 2 * 4) by reflexivity.
  assert (Hdim : fits_uint32 2) by (unfold fits_uint32; lia).
  assert (Hdat : fits_uint32 (Py.len (stored (filter_rows 2 2 white_2x2) 9)))
    by (rewrite white_2x2_compressed_length; unfold fits_uint32; lia).
  split; [auto |].
  exact (write_png_rgba_container crc32 stored "white.png" 2 2 white_2x2 []
           Hlen Hdim Hdim Hdat).
Defined.

(** C3 as stated fails: a width of [2^32] with height 0 and an empty
    buffer passes the size check, and the header cannot be packed. *)
Lemma write_png_rgba_wide_image :
  Py.len (@nil byte) = 4294967296 * 0 * 4 /\
  write_png_rgba crc32 stored "wide.png" 4294967296 0 [] [] =
    (Raise StructError, []).
Proof.
  split; vm_compute; reflexivity.
Qed.

Lemma write_png_rgba_errors_witness :
  Py.len (@nil byte) <> 2 * 2 * 4 /\
  fst (write_png_rgba crc32 stored "white.png" 2 2 [] []) = Raise size_mismatch.
Proof.
  assert (Hlen : Py.len (@nil byte) <> 2 * 2 * 4) by (unfold Py.len; cbn; lia).
  split; [exact Hlen |].
  destruct (write_png_rgba_errors crc32 stored "white.png" 2 2 [] []) as (Hsize & _).
  exact (proj2 Hsize Hlen).
Defined.

(** C8 as stated fails: with matching lengths the call can still raise,
    and the error is not the size mismatch. *)
Lemma write_png_rgba_other_error :
  Py.len (@nil byte) = 4294967296 * 0 * 4 /\
  fst (write_png_rgba crc32 stored "wide.png" 4294967296 0 [] []) = Raise StructError /\
  StructError <> size_mismatch.
Proof.
  split; [reflexivity |]. split; [vm_compute; reflexivity | discriminate].
Qed.

(** The file of the 2x2 white image, byte for byte, under [crc32] and the
    storing compressor. *)
Example white_png_bytes :
  write_png_rgba crc32 stored "white.png" 2 2 white_2x2 [] =
  (Ok tt,
   [("white.png"%string,
     [x89; x50; x4e; x47; x0d; x0a; x1a; x0a;
      x00; x00; x00; x0d; x49; x48; x44; x52;
      x00; x00; x00; x02; x00; x00; x00; x02; x08; x06; x00; x00; x00;
      x72; xb6; x0d; x24;
      x00; x00; x00; x12; x49; x44; x41; x54;
      x00; xff; xff; xff; xff; xff; xff; xff; xff;
      x00; xff; xff; xff; xff; xff; xff; xff; xff;
      x4f; x54; x6f; x77;
      x00; x00; x00; x00; x49; x45; x4e; x44; xae; x42; x60; x82])]).
Proof. vm_compute. reflexivity. Qed.

End EncoderExamples.

(** ** The eight stocks *)

Section StockFacts.
Local Open Scope R_scope.

Ltac moderate_stock := unfold moderate; cbn; lra.

Lemma stock_params_moderate :
  moderate portra_400 /\ moderate ektar_100 /\ moderate gold_200 /\
  moderate cinestill_800t /\ moderate provia_100f /\ moderate velvia_50.
Proof.
  repeat split; cbn; lra.
Qed.

Lemma transform_cinestill_800t_total (c : Rgb) :
  exists out, transform_cinestill_800t c = Ok out /\ in_unit_cube out.
Proof.
  unfold transform_cinestill_800t.
  destruct (grade_color_total c cinestill_800t) as ([[r g] b] & -> & _).
  { right. moderate_stock. }
  cbn [bind]. cbv zeta. eexists. split; [reflexivity |].
  cbn. unfold in_unit. auto using clamp_range.
Qed.

(** Every stock transform returns a triple of [[0, 1]^3] on every input. *)
Lemma stock_transforms_total (name : string) (t : Rgb -> result Rgb) :
  In (name, t) TRANSFORMS ->
  forall c, exists out, t c = Ok out /\ in_unit_cube out.
Proof.
  unfold TRANSFORMS. cbn [In].
  intros Hin c.
  repeat (destruct Hin as [Hin | Hin]; [injection Hin as _ <- |]);
    try contradiction.
  - apply grade_color_total. right. moderate_stock.
  - apply grade_color_total. right. moderate_stock.
  - apply grade_color_total. right. moderate_stock.
  - apply transform_cinestill_800t_total.
  - apply grade_color_total. right. moderate_stock.
  - apply grade_color_total. right. moderate_stock.
  - apply grade_bw_total. lra.
  - apply grade_bw_total. lra.
Qed.

(** What [main] relies on: at level 8 every stock yields a buffer that
    passes the size check of [write_png_rgba path 512 512]. *)
Lemma stock_luts_pass_size_check (name : string) (t : Rgb -> result Rgb) :
  In (name, t) TRANSFORMS ->
  exists rgba,
    generate_hald_lut t 8 = Ok rgba /\ Py.len rgba = (512 * 512 * 4)%Z.
Proof.
  intros Hin.
  destruct (generate_hald_lut_returns t 8) as (rgba & Hout & Hlen).
  - lia.
  - unfold hald_width, hald_size, Py.maxsize. lia.
  - intros c. destruct (stock_transforms_total name t Hin c) as (out & Hout & _).
    now exists out.
  - exists rgba. split; [exact Hout | exact Hlen].
Qed.

End StockFacts.

(** * Further properties of the colour space *)

Section ClampFacts.
Local Open Scope R_scope.

Lemma clamp_idempotent (v : R) : clamp (clamp v) = clamp v.
Proof.
  apply clamp_inside, clamp_range.
Qed.

Lemma clamp_monotone (u v : R) : u <= v -> clamp u <= clamp v.
Proof.
  intros Huv. unfold clamp, clamp_between, Py.max, Py.min. split_cmp; lra.
Qed.

(** X1. [clamp(value, low, high)] with [low <= high] returns [low] below
    the interval, [high] above it and the value itself inside; with the
    bounds the wrong way round it returns [low] whatever the value. *)
Theorem clamp_between_cases (value low high : R) :
  (low <= high ->
   (value < low -> clamp_between value low high = low) /\
   (low <= value <= high -> clamp_between value low high = value) /\
   (high < value -> clamp_between value low high = high)) /\
  (high < low -> clamp_between value low high = low).
Proof.
  unfold clamp_between, Py.max, Py.min.
  repeat split; intros; split_cmp; lra.
Qed.

Lemma clamp_between_cases_witness :
  (0 <= 255 /\ 255 < 300) /\ clamp_between 300 0 255 = 255.
Proof.
  assert (Hb : 0 <= 255) by lra. assert (Hv : 255 < 300) by lra.
  split; [split; assumption |].
  exact (proj2 (proj2 (proj1 (clamp_between_cases 300 0 255) Hb)) Hv).
Defined.

End ClampFacts.

Section TransferFacts.
Local Open Scope R_scope.

Lemma srgb_to_linear_high (c : R) :
  0.04045 < c <= 1 ->
  srgb_to_linear c = Ok (Rpower ((c + 0.055) / 1.055) 2.4).
Proof.
  intros Hc. unfold srgb_to_linear. rewrite clamp_inside by lra.
  destruct (Rle_dec c 0.04045); [lra |].
  apply pow_unit; lra.
Qed.

Lemma linear_to_srgb_low (c : R) :
  0 <= c <= 0.0031308 -> linear_to_srgb c = Ok (c * 12.92).
Proof.
  intros Hc. unfold linear_to_srgb. rewrite clamp_inside by lra.
  destruct (Rle_dec c 0.0031308); [reflexivity | lra].
Qed.

Lemma linear_to_srgb_high (c : R) :
  0.0031308 < c <= 1 ->
  linear_to_srgb c = Ok (1.055 * Rpower c (1.0 / 2.4) - 0.055).
Proof.
  intros Hc. unfold linear_to_srgb. rewrite clamp_inside by lra.
  destruct (Rle_dec c 0.0031308); [lra |].
  destruct (pow_unit c (1.0 / 2.4) ltac:(lra) ltac:(lra)) as [-> _].
  reflexivity.
Qed.

Lemma srgb_to_linear_clamped (v : R) : srgb_to_linear v = srgb_to_linear (clamp v).
Proof.
  unfold srgb_to_linear. now rewrite clamp_idempotent.
Qed.

Lemma linear_to_srgb_clamped (v : R) : linear_to_srgb v = linear_to_srgb (clamp v).
Proof.
  unfold linear_to_srgb. now rewrite clamp_idempotent.
Qed.

Lemma Rpower_one (y : R) : Rpower 1 y = 1.
Proof.
  unfold Rpower. rewrite ln_1, Rmult_0_r. apply exp_0.
Qed.

(** X2. [srgb_to_linear] never raises, returns a value of [[0, 1]],
    treats an input outside [[0, 1]] as the nearer end of the interval,
    and maps 0 (and anything below) to 0 and 1 (and anything above) to 1. *)
Theorem srgb_to_linear_total (v : R) :
  exists l,
    srgb_to_linear v = Ok l /\ 0 <= l <= 1 /\
    srgb_to_linear (clamp v) = Ok l /\
    (v <= 0 -> l = 0) /\ (1 <= v -> l = 1).
Proof.
  destruct (srgb_to_linear_ok v) as (l & Hl & Hrange).
  exists l. split; [exact Hl |]. split; [exact Hrange |].
  split; [now rewrite <- srgb_to_linear_clamped |]. split.
  - intros Hv. rewrite srgb_to_linear_clamped, (clamp_low v Hv) in Hl.
    rewrite srgb_to_linear_low in Hl by lra. injection Hl as <-. lra.
  - intros Hv. rewrite srgb_to_linear_clamped, (clamp_high v Hv) in Hl.
    rewrite srgb_to_linear_high in Hl by lra. injection Hl as <-.
    replace ((1 + 0.055) / 1.055) with 1 by lra. apply Rpower_one.
Qed.

Lemma srgb_to_linear_total_witness :
  1 <= 1e9 /\ srgb_to_linear 1e9 = Ok 1.
Proof.
  assert (Hv : 1 <= 1e9) by lra.
  split; [exact Hv |].
  destruct (srgb_to_linear_total 1e9) as (l & Hl & _ & _ & _ & Hone).
  rewrite Hl. f_equal. exact (Hone Hv).
Defined.

(** X3. [srgb_to_linear] is non-decreasing over all inputs, across the
    breakpoint 0.04045 included. *)
Theorem srgb_to_linear_monotone (u v lu lv : R) :
  u <= v -> srgb_to_linear u = Ok lu -> srgb_to_linear v = Ok lv -> lu <= lv.
Proof.
  intros Huv. rewrite (srgb_to_linear_clamped u), (srgb_to_linear_clamped v).
  pose proof (clamp_monotone u v Huv) as Hmono.
  pose proof (clamp_range u) as Hu. pose proof (clamp_range v) as Hv.
  set (cu := clamp u) in *. set (cv := clamp v) in *.
  destruct (Rle_dec cv 0.04045) as [Hvlow | Hvhigh].
  - rewrite !srgb_to_linear_low by lra. intros [= <-] [= <-]. lra.
  - rewrite (srgb_to_linear_high cv) by lra. intros Hlu [= <-].
    destruct (Rle_dec cu 0.04045) as [Hulow | Huhigh].
    + rewrite srgb_to_linear_low in Hlu by lra. injection Hlu as <-.
      apply Rle_trans with (0.04045 / 12.92); [lra |].
      rewrite exponent_decode.
      apply Rpower_lower; [lra | lra | lia |].
      apply Rle_trans with ((0.09545 / 1.055) ^ 12); [lra |].
      apply pow_incr. lra.
    + rewrite srgb_to_linear_high in Hlu by lra. injection Hlu as <-.
      apply Rle_Rpower_l; lra.
Qed.

Lemma srgb_to_linear_monotone_witness :
  (0.02 <= 0.03 /\ srgb_to_linear 0.02 = Ok (0.02 / 12.92) /\
   srgb_to_linear 0.03 = Ok (0.03 / 12.92)) /\
  0.02 / 12.92 <= 0.03 / 12.92.
Proof.
  assert (H1 : 0.02 <= 0.03) by lra.
  assert (H2 : srgb_to_linear 0.02 = Ok (0.02 / 12.92))
    by (apply srgb_to_linear_low; lra).
  assert (H3 : srgb_to_linear 0.03 = Ok (0.03 / 12.92))
    by (apply srgb_to_linear_low; lra).
  split; [auto |].
  exact (srgb_to_linear_monotone 0.02 0.03 _ _ H1 H2 H3).
Defined.

(** The encoder's power just above its threshold. *)
Lemma encode_power_lower (c : R) :
  0.0031308 < c -> 0.090473845 <= Rpower c (1.0 / 2.4).
Proof.
  intros Hc. rewrite exponent_encode.
  apply Rpower_lower; [lra | lra | lia |].
  apply Rle_trans with (0.0031308 ^ 5); [lra |].
  apply pow_incr. lra.
Qed.

(** X4. [linear_to_srgb] never raises and its value already lies in
    [[0, 1]]; it treats an input outside [[0, 1]] as the nearer end of the
    interval, and maps every input at or below 0 to 0. *)
Theorem linear_to_srgb_total (v : R) :
  exists e,
    linear_to_srgb v = Ok e /\ 0 <= e <= 1 /\
    linear_to_srgb (clamp v) = Ok e /\
    (v <= 0 -> e = 0).
Proof.
  rewrite (linear_to_srgb_clamped v).
  pose proof (clamp_range v) as Hc.
  assert (Hcases : exists e, linear_to_srgb (clamp v) = Ok e /\ 0 <= e <= 1).
  { destruct (Rle_dec (clamp v) 0.0031308) as [Hlow | Hhigh].
    - rewrite linear_to_srgb_low by lra. eexists. split; [reflexivity | lra].
    - rewrite linear_to_srgb_high by lra. eexists. split; [reflexivity |].
      pose proof (encode_power_lower (clamp v) ltac:(lra)).
      pose proof (Rpower_unit (clamp v) (1.0 / 2.4) ltac:(lra) ltac:(lra)). lra. }
  destruct Hcases as (e & He & Hrange).
  exists e. split; [exact He |]. split; [exact Hrange |].
  split; [exact He |].
  intros Hv. rewrite (clamp_low v Hv), linear_to_srgb_low in He by lra.
  injection He as <-. lra.
Qed.

Lemma linear_to_srgb_total_witness :
  -3 <= 0 /\ linear_to_srgb (-3) = Ok 0.
Proof.
  assert (Hv : -3 <= 0) by lra.
  split; [exact Hv |].
  destruct (linear_to_srgb_total (-3)) as (e & He & _ & _ & Hzero).
  rewrite He. f_equal. exact (Hzero Hv).
Defined.

End TransferFacts.

Section TransferOrder.
Local Open Scope R_scope.

(** X5. [linear_to_srgb] is non-decreasing below its threshold 0.0031308
    and above it, but steps down across it: over all inputs a larger
    argument can give a smaller value, by less than 3e-8, and it does so
    between 0.0031308 and 0.003130801. *)
Theorem linear_to_srgb_almost_monotone :
  (forall u v eu ev,
     u <= v -> linear_to_srgb u = Ok eu -> linear_to_srgb v = Ok ev ->
     eu <= ev + 3e-8 /\
     (clamp v <= 0.0031308 \/ 0.0031308 < clamp u -> eu <= ev)) /\
  (exists eu ev,
     linear_to_srgb 0.0031308 = Ok eu /\ linear_to_srgb 0.003130801 = Ok ev /\
     ev < eu).
Proof.
  split.
  - intros u v eu ev Huv.
    rewrite (linear_to_srgb_clamped u), (linear_to_srgb_clamped v).
    pose proof (clamp_monotone u v Huv) as Hmono.
    pose proof (clamp_range u) as Hu. pose proof (clamp_range v) as Hv.
    set (cu := clamp u) in *. set (cv := clamp v) in *.
    destruct (Rle_dec cv 0.0031308) as [Hvlow | Hvhigh].
    + rewrite !linear_to_srgb_low by lra. intros [= <-] [= <-]. split; intros; lra.
    + rewrite (linear_to_srgb_high cv) by lra. intros Heu [= <-].
      destruct (Rle_dec cu 0.0031308) as [Hulow | Huhigh].
      * rewrite linear_to_srgb_low in Heu by lra. injection Heu as <-.
        pose proof (encode_power_lower cv ltac:(lra)). split; [lra |].
        intros [Hside | Hside]; lra.
      * rewrite linear_to_srgb_high in Heu by lra. injection Heu as <-.
        assert (Rpower cu (1.0 / 2.4) <= Rpower cv (1.0 / 2.4))
          by (apply Rle_Rpower_l; lra).
        split; intros; lra.
  - eexists. eexists.
    rewrite linear_to_srgb_low by lra. rewrite linear_to_srgb_high by lra.
    split; [reflexivity |]. split; [reflexivity |].
    assert (Rpower 0.003130801 (1.0 / 2.4) <= 0.09047386).
    { rewrite exponent_encode. apply Rpower_upper; [lra | lra | lia | lra]. }
    lra.
Qed.

Lemma linear_to_srgb_almost_monotone_witness :
  (0.001 <= 0.002 /\ linear_to_srgb 0.001 = Ok (0.001 * 12.92) /\
   linear_to_srgb 0.002 = Ok (0.002 * 12.92)) /\
  0.001 * 12.92 <= 0.002 * 12.92 + 3e-8.
Proof.
  assert (H1 : 0.001 <= 0.002) by lra.
  assert (H2 : linear_to_srgb 0.001 = Ok (0.001 * 12.92))
    by (apply linear_to_srgb_low; lra).
  assert (H3 : linear_to_srgb 0.002 = Ok (0.002 * 12.92))
    by (apply linear_to_srgb_low; lra).
  split; [auto |].
  exact (proj1 (proj1 linear_to_srgb_almost_monotone 0.001 0.002 _ _ H1 H2 H3)).
Defined.

(** X6. The other round trip: encoding a linear value of [[0, 1]] and
    decoding the result gives the value back within 1e-7. *)
Theorem linear_roundtrip (l : R) :
  0 <= l <= 1 ->
  exists e l',
    linear_to_srgb l = Ok e /\ srgb_to_linear e = Ok l' /\ Rabs (l' - l) <= 1e-7.
Proof.
  intros Hl. destruct (Rle_dec l 0.0031308) as [Hlow | Hhigh].
  - rewrite linear_to_srgb_low by lra. eexists. eexists.
    split; [reflexivity |]. rewrite srgb_to_linear_low by lra.
    split; [reflexivity |].
    replace (l * 12.92 / 12.92 - l) with 0 by lra. rewrite Rabs_R0. lra.
  - rewrite linear_to_srgb_high by lra.
    set (P := Rpower l (1.0 / 2.4)).
    assert (HP : 0.090473845 <= P <= 1).
    { split; [apply encode_power_lower; lra |].
      apply (Rpower_unit l (1.0 / 2.4)); lra. }
    assert (Hback : Rpower P 2.4 = l).
    { unfold P. rewrite Rpower_mult.
      replace (1.0 / 2.4 * 2.4) with 1 by lra. apply Rpower_1. lra. }
    destruct (Rle_dec (1.055 * P - 0.055) 0.04045) as [Helow | Hehigh];
      eexists; eexists; (split; [reflexivity |]).
    + rewrite srgb_to_linear_low by lra. split; [reflexivity |].
      assert (Hup : l <= 0.00313081).
      { rewrite <- Hback.
        apply Rle_trans with (Rpower (0.09545 / 1.055) 2.4).
        - apply Rle_Rpower_l; lra.
        - rewrite exponent_decode. apply Rpower_upper; [lra | lra | lia | lra]. }
      unfold Rabs. destruct Rcase_abs; lra.
    + rewrite srgb_to_linear_high by lra. split; [reflexivity |].
      replace ((1.055 * P - 0.055 + 0.055) / 1.055) with P by lra.
      rewrite Hback. replace (l - l) with 0 by lra. rewrite Rabs_R0. lra.
Qed.

Lemma linear_roundtrip_witness :
  0 <= 0.18 <= 1 /\
  exists e l',
    linear_to_srgb 0.18 = Ok e /\ srgb_to_linear e = Ok l' /\
    Rabs (l' - 0.18) <= 1e-7.
Proof.
  assert (H : 0 <= 0.18 <= 1) by lra.
  split; [exact H | exact (linear_roundtrip 0.18 H)].
Defined.

End TransferOrder.

(** * Further properties of the grades *)

Section GradeFacts.
Local Open Scope R_scope.

(** X7. Both grades see an input triple only through [clamp]: a triple
    outside [[0, 1]^3] is graded exactly as its clamped version, for every
    parameter set, exceptions included. *)
Theorem grades_clamp_input (r g b : R) :
  (forall p,
     grade_color (r, g, b) p = grade_color (clamp r, clamp g, clamp b) p) /\
  (forall weights contrast gamma warm_tone,
     grade_bw (r, g, b) weights contrast gamma warm_tone =
     grade_bw (clamp r, clamp g, clamp b) weights contrast gamma warm_tone).
Proof.
  split.
  - intros p. unfold grade_color. now rewrite <- !srgb_to_linear_clamped.
  - intros [[w0 w1] w2] contrast gamma warm_tone. unfold grade_bw.
    now rewrite <- !srgb_to_linear_clamped.
Qed.

Lemma each_gray (f : R -> R) (c : Rgb) : is_gray c -> is_gray (Stages.each f c).
Proof.
  destruct c as [[r g] b]. cbn. intros [-> ->]. auto.
Qed.

Lemma each_checked_gray (f : R -> result R) (c c' : Rgb) :
  is_gray c -> Stages.each_checked f c = Ok c' -> is_gray c'.
Proof.
  destruct c as [[r g] b]. cbn. intros [-> ->].
  destruct (f b) as [v | e]; cbn; [| discriminate].
  intros [= <-]. cbn. auto.
Qed.

(** From the saturation stage on, a gray triple stays gray. *)
Lemma gray_after_saturate (p : ColorParams) (c out : Rgb) :
  is_gray c ->
  (s6 <- Stages.gamma_law p
           (Stages.lift_gain p (Stages.pivot_contrast p c)) ;;
   Stages.encode s6) = Ok out ->
  is_gray out.
Proof.
  intros Hc Hout.
  pose proof (each_gray (fun v => (v - 0.18) * contrast p + 0.18) c Hc) as H4.
  fold (Stages.pivot_contrast p c) in H4.
  pose proof (each_gray (fun v => (v + lift p) * gain p) _ H4) as H5.
  fold (Stages.lift_gain p (Stages.pivot_contrast p c)) in H5.
  destruct (Stages.gamma_law p (Stages.lift_gain p (Stages.pivot_contrast p c)))
    as [s6 | e] eqn:Hgamma; cbn in Hout; [| discriminate].
  assert (H6 : is_gray s6).
  { unfold Stages.gamma_law in Hgamma. destruct Rlt_dec.
    - eapply each_checked_gray; eassumption.
    - now injection Hgamma as <-. }
  unfold Stages.encode in Hout. eapply each_checked_gray; eassumption.
Qed.

(** X8. With no white balance and no shadow tint ([warmth = cool =
    shadow_teal = 0]) a gray input gives a gray output: whatever the
    saturation, contrast, lift, gain and gamma, a triple that [grade_color]
    returns for [(v, v, v)] has three equal components. *)
Theorem grade_color_keeps_gray (v : R) (p : ColorParams) (out : Rgb) :
  warmth p = 0 -> cool p = 0 -> shadow_teal p = 0 ->
  grade_color (v, v, v) p = Ok out -> is_gray out.
Proof.
  intros Hw Hc Ht. rewrite grade_color_as_pipeline. unfold Stages.pipeline.
  unfold Stages.decode, Stages.each_checked.
  destruct (srgb_to_linear v) as [l | e]; cbn [bind]; [| discriminate].
  cbv zeta. apply gray_after_saturate.
  unfold Stages.saturate, Stages.teal_bias, Stages.white_balance, Stages.each,
    rgb_to_luma.
  rewrite Hw, Hc, Ht. cbn. split; ring.
Qed.

Lemma grade_color_keeps_gray_witness :
  exists out, grade_color (0.5, 0.5, 0.5) default_params = Ok out /\ is_gray out.
Proof.
  destruct (grade_color_total (0.5, 0.5, 0.5) default_params) as (out & Hout & _).
  { left. cbn. replace (1.0 - 1) with 0 by lra. rewrite Rabs_R0. lra. }
  exists out. split; [exact Hout |].
  apply (grade_color_keeps_gray 0.5 default_params out); try (cbn; lra).
  exact Hout.
Defined.

(** X9. With [saturation = 0] every input is fully desaturated: a triple
    that [grade_color] returns has three equal components, whatever the
    other parameters. *)
Theorem grade_color_desaturates (rgb : Rgb) (p : ColorParams) (out : Rgb) :
  saturation p = 0 -> grade_color rgb p = Ok out -> is_gray out.
Proof.
  intros Hs. rewrite grade_color_as_pipeline. unfold Stages.pipeline.
  destruct (Stages.decode rgb) as [lin | e]; cbn [bind]; [| discriminate].
  cbv zeta. apply gray_after_saturate.
  unfold Stages.saturate.
  destruct (Stages.teal_bias p (Stages.shadow_weight (rgb_to_luma lin))
              (Stages.white_balance p lin)) as [[r g] b].
  cbn. rewrite Hs. split; ring.
Qed.

Lemma grade_color_desaturates_witness :
  exists out, grade_color (0.9, 0.2, 0.4) desaturated = Ok out /\ is_gray out.
Proof.
  destruct (grade_color_total (0.9, 0.2, 0.4) desaturated) as (out & Hout & _).
  { left. cbn. replace (1.0 - 1) with 0 by lra. rewrite Rabs_R0. lra. }
  exists out. split; [exact Hout |].
  exact (grade_color_desaturates (0.9, 0.2, 0.4) desaturated out eq_refl Hout).
Defined.

End GradeFacts.

Section StockClaims.
Local Open Scope R_scope.

(** X10. Each of the eight stock transforms returns, for every input
    triple, a triple of [[0, 1]^3] and never raises; sampled at level 8 it
    gives a buffer of [512 * 512 * 4] bytes, the size [main] passes on. *)
Theorem stock_transforms_safe (name : string) (t : Rgb -> result Rgb) :
  In (name, t) TRANSFORMS ->
  (forall c, exists out, t c = Ok out /\ in_unit_cube out) /\
  (exists rgba,
     generate_hald_lut t 8 = Ok rgba /\ Py.len rgba = (512 * 512 * 4)%Z).
Proof.
  intros Hin. split.
  - exact (stock_transforms_total name t Hin).
  - exact (stock_luts_pass_size_check name t Hin).
Qed.

Lemma stock_transforms_safe_witness :
  In ("velvia50.png"%string, transform_velvia_50) TRANSFORMS /\
  exists rgba,
    generate_hald_lut transform_velvia_50 8 = Ok rgba /\
    Py.len rgba = (512 * 512 * 4)%Z.
Proof.
  assert (Hin : In ("velvia50.png"%string, transform_velvia_50) TRANSFORMS).
  { unfold TRANSFORMS. cbn [In]. do 5 right. left. reflexivity. }
  split; [exact Hin |].
  exact (proj2 (stock_transforms_safe _ _ Hin)).
Defined.

(** X11. The highlight warming of [transform_cinestill_800t] only moves a
    graded triple towards warm: red rises by at most 0.020, green by at
    most 0.004, blue falls by at most 0.016; and a triple whose mean is at
    most 0.55 comes out of it unchanged. *)
Theorem cinestill_highlight_warming (rgb : Rgb) :
  exists r g b r' g' b',
    grade_color rgb cinestill_800t = Ok (r, g, b) /\
    transform_cinestill_800t rgb = Ok (r', g', b') /\
    r <= r' <= r + 0.020 /\ g <= g' <= g + 0.004 /\ b - 0.016 <= b' <= b /\
    ((r + g + b) / 3 <= 0.55 -> r' = r /\ g' = g /\ b' = b).
Proof.
  destruct (grade_color_total rgb cinestill_800t) as ([[r g] b] & Hout & Hunit).
  { right. unfold moderate. cbn. lra. }
  cbn in Hunit. unfold in_unit in Hunit. destruct Hunit as (Hr & Hg & Hb).
  unfold transform_cinestill_800t. rewrite Hout. cbn [bind]. cbv zeta.
  set (h := clamp (((r + g + b) / 3.0 - 0.55) * 2.0)).
  pose proof (clamp_range (((r + g + b) / 3.0 - 0.55) * 2.0)) as Hh. fold h in Hh.
  exists r, g, b. eexists. eexists. eexists.
  split; [reflexivity |]. split; [reflexivity |].
  assert (Hlow : (r + g + b) / 3 <= 0.55 -> h = 0).
  { intros Hy. unfold h. apply clamp_low. lra. }
  unfold clamp, clamp_between, Py.max, Py.min.
  repeat split; try (intros Hy; specialize (Hlow Hy)); split_cmp; lra.
Qed.

End StockClaims.

(** * Further properties of the cube sampler *)

Section IndexFacts.
Local Open Scope Z_scope.

(** X12. For a positive size, [cube_index] splits every index below
    [size^3] into three coordinates below [size] with
    [index = r + g * size + b * size^2], and every such triple of
    coordinates is the split of exactly that index; for size 0 it raises
    [ZeroDivisionError]. *)
Theorem cube_index_bijection (size : Z) :
  (0 < size ->
   (forall index, 0 <= index < size * size * size ->
      exists r g b,
        cube_index size index = Ok (r, g, b) /\
        0 <= r < size /\ 0 <= g < size /\ 0 <= b < size /\
        index = r + g * size + b * (size * size)) /\
   (forall r g b, 0 <= r < size -> 0 <= g < size -> 0 <= b < size ->
      0 <= r + g * size + b * (size * size) < size * size * size /\
      cube_index size (r + g * size + b * (size * size)) = Ok (r, g, b))) /\
  (size = 0 -> forall index, cube_index size index = Raise ZeroDivisionError).
Proof.
  split; [intros Hsize; split |].
  - intros index Hindex. rewrite cube_index_value by lia.
    do 3 eexists. split; [reflexivity |].
    assert (Hss : 0 < size * size) by nia.
    pose proof (Z.mod_pos_bound index size Hsize).
    pose proof (Z.mod_pos_bound (index / size) size Hsize).
    pose proof (Z.div_pos index (size * size) ltac:(lia) Hss).
    pose proof (Z.div_lt_upper_bound index (size * size) size Hss ltac:(nia)).
    repeat split; try lia.
    rewrite <- Z.div_div by lia.
    pose proof (Z.div_mod index size ltac:(lia)).
    pose proof (Z.div_mod (index / size) size ltac:(lia)).
    nia.
  - intros r g b Hr Hg Hb. split; [nia |].
    rewrite cube_index_value by lia.
    assert (E1 : (r + g * size + b * (size * size)) mod size = r).
    { replace (r + g * size + b * (size * size)) with (r + (g + b * size) * size) by ring.
      rewrite Z.mod_add by lia. apply Z.mod_small. lia. }
    assert (E2 : (r + g * size + b * (size * size)) / size = g + b * size).
    { replace (r + g * size + b * (size * size)) with (r + (g + b * size) * size) by ring.
      rewrite Z.div_add by lia. rewrite Z.div_small by lia. lia. }
    assert (E3 : (r + g * size + b * (size * size)) / (size * size) = b).
    { rewrite <- Z.div_div by lia. rewrite E2.
      rewrite Z.div_add by lia. rewrite Z.div_small by lia. lia. }
    rewrite E1, E2, E3. rewrite Z.mod_add by lia. rewrite Z.mod_small by lia.
    reflexivity.
  - intros -> index. reflexivity.
Qed.

Lemma cube_index_bijection_witness :
  (0 < 64 /\ 0 <= 4097 < 64 * 64 * 64) /\
  exists r g b,
    cube_index 64 4097 = Ok (r, g, b) /\
    0 <= r < 64 /\ 0 <= g < 64 /\ 0 <= b < 64 /\
    4097 = r + g * 64 + b * (64 * 64).
Proof.
  assert (Hs : 0 < 64) by lia.
  assert (Hi : 0 <= 4097 < 64 * 64 * 64) by lia.
  split; [split; assumption |].
  exact (proj1 (proj1 (cube_index_bijection 64) Hs) 4097 Hi).
Defined.

(** X13. For a width other than 0, [pixel_position] returns [(x, y)] with
    [y * width + x = index], so the byte offset of a pixel is four times
    its index whatever the width; for a positive width the indices below
    [width * height] are in one-to-one correspondence with the positions
    of a [width] by [height] image; for width 0 it raises
    [ZeroDivisionError]. *)
Theorem pixel_position_bijection (width : Z) :
  (width <> 0 -> forall index,
     exists x y,
       pixel_position width index = Ok (x, y) /\ (y * width + x) * 4 = index * 4) /\
  (0 < width -> forall height,
     (forall index, 0 <= index < width * height ->
        exists x y,
          pixel_position width index = Ok (x, y) /\
          0 <= x < width /\ 0 <= y < height) /\
     (forall x y, 0 <= x < width -> 0 <= y < height ->
        0 <= y * width + x < width * height /\
        pixel_position width (y * width + x) = Ok (x, y))) /\
  (width = 0 -> forall index, pixel_position width index = Raise ZeroDivisionError).
Proof.
  split; [| split].
  - intros Hw index. rewrite pixel_position_value by assumption.
    do 2 eexists. split; [reflexivity |].
    pose proof (Z.div_mod index width Hw). lia.
  - intros Hw height. split.
    + intros index Hindex. rewrite pixel_position_value by lia.
      do 2 eexists. split; [reflexivity |].
      pose proof (Z.mod_pos_bound index width Hw).
      pose proof (Z.div_pos index width ltac:(lia) Hw).
      pose proof (Z.div_lt_upper_bound index width height Hw ltac:(lia)).
      lia.
    + intros x y Hx Hy. split; [nia |].
      rewrite pixel_position_value by lia. f_equal. f_equal.
      * rewrite Z.add_comm, Z.mod_add by lia. apply Z.mod_small. lia.
      * rewrite Z.add_comm, Z.div_add by lia. rewrite Z.div_small by lia. lia.
  - intros -> index. reflexivity.
Qed.

Lemma pixel_position_bijection_witness :
  (0 < 512 /\ 0 <= 262143 < 512 * 512) /\
  exists x y,
    pixel_position 512 262143 = Ok (x, y) /\ 0 <= x < 512 /\ 0 <= y < 512.
Proof.
  assert (Hw : 0 < 512) by lia.
  assert (Hi : 0 <= 262143 < 512 * 512) by lia.
  split; [split; assumption |].
  exact (proj1 (proj1 (proj2 (pixel_position_bijection 512)) Hw 512) 262143 Hi).
Defined.

End IndexFacts.

Section QuantizeFacts.
Local Open Scope R_scope.

Lemma Int_part_monotone (x y : R) : x <= y -> (Int_part x <= Int_part y)%Z.
Proof.
  intros Hxy. destruct (base_Int_part x) as [Hx _].
  destruct (base_Int_part y) as [_ Hy].
  assert (Int_part x < Int_part y + 1)%Z; [| lia].
  apply lt_IZR. rewrite plus_IZR. lra.
Qed.

Lemma round_near_floor (x : R) :
  (Py.round x = Int_part x \/ Py.round x = Int_part x + 1)%Z.
Proof.
  unfold Py.round. split_cmp; try destruct (Z.even (Int_part x)); auto.
Qed.

Lemma round_monotone (x y : R) : x <= y -> (Py.round x <= Py.round y)%Z.
Proof.
  intros Hxy. pose proof (Int_part_monotone x y Hxy) as Hfloor.
  destruct (Z.eq_dec (Int_part x) (Int_part y)) as [Heq | Hne].
  - unfold Py.round. rewrite Heq.
    destruct (Rlt_dec (x - IZR (Int_part y)) (1 / 2));
      destruct (Rlt_dec (y - IZR (Int_part y)) (1 / 2));
      destruct (Rlt_dec (1 / 2) (x - IZR (Int_part y)));
      destruct (Rlt_dec (1 / 2) (y - IZR (Int_part y)));
      destruct (Z.even (Int_part y)); try lia; lra.
  - destruct (round_near_floor x), (round_near_floor y); lia.
Qed.

Lemma round_error (x : R) : Rabs (IZR (Py.round x) - x) <= 1 / 2.
Proof.
  unfold Py.round. destruct (base_Int_part x) as [Hlo Hhi].
  set (f := Int_part x) in *.
  destruct (Rlt_dec (x - IZR f) (1 / 2)).
  { unfold Rabs. destruct Rcase_abs; lra. }
  destruct (Rlt_dec (1 / 2) (x - IZR f)).
  { rewrite plus_IZR. unfold Rabs. destruct Rcase_abs; lra. }
  destruct (Z.even f); [| rewrite plus_IZR]; unfold Rabs; destruct Rcase_abs; lra.
Qed.

Lemma round_integer (n : Z) : Py.round (IZR n) = n.
Proof.
  unfold Py.round. destruct (base_Int_part (IZR n)) as [Hlo Hhi].
  assert (Hf : Int_part (IZR n) = n).
  { assert (Int_part (IZR n) <= n)%Z by now apply le_IZR.
    assert (n < Int_part (IZR n) + 1)%Z; [| lia].
    apply lt_IZR. rewrite plus_IZR. lra. }
  rewrite Hf. destruct (Rlt_dec (IZR n - IZR n) (1 / 2)); [reflexivity | lra].
Qed.

(** X14. [int(round(clamp(v) * 255))], the byte written for a channel
    value [v], lies in 0..255, is within one half of [clamp(v) * 255], does
    not decrease when [v] grows, and is 0 for [v <= 0] and 255 for
    [v >= 1]. *)
Theorem quantize_levels (v : R) :
  (0 <= quantize v <= 255)%Z /\
  Rabs (IZR (quantize v) - clamp v * 255) <= 1 / 2 /\
  (forall u, u <= v -> (quantize u <= quantize v)%Z) /\
  (v <= 0 -> quantize v = 0%Z) /\
  (1 <= v -> quantize v = 255%Z).
Proof.
  split; [apply quantize_range |]. split; [apply round_error |].
  split; [| split].
  - intros u Huv. unfold quantize. apply round_monotone.
    pose proof (clamp_monotone u v Huv). lra.
  - intros Hv. unfold quantize. rewrite (clamp_low v Hv).
    replace (0 * 255) with (IZR 0) by lra. apply round_integer.
  - intros Hv. unfold quantize. rewrite (clamp_high v Hv).
    replace (1 * 255) with (IZR 255) by lra. apply round_integer.
Qed.

Lemma quantize_levels_witness :
  0.25 <= 0.75 /\ (quantize 0.25 <= quantize 0.75)%Z.
Proof.
  assert (H : 0.25 <= 0.75) by lra.
  split; [exact H |].
  exact (proj1 (proj2 (proj2 (quantize_levels 0.75))) 0.25 H).
Defined.

End QuantizeFacts.

Section BufferFacts.
Local Open Scope Z_scope.

Lemma nth_update_eq {A : Type} (l : list A) (i : nat) (v d : A) :
  (i < List.length l)%nat -> nth i (Py.update l i v) d = v.
Proof.
  revert i. induction l as [| a l IH]; intros [| i] Hi; cbn in *; try lia.
  - reflexivity.
  - apply IH. lia.
Qed.

Lemma nth_update_neq {A : Type} (l : list A) (i j : nat) (v d : A) :
  j <> i -> nth j (Py.update l i v) d = nth j l d.
Proof.
  revert i j. induction l as [| a l IH]; intros [| i] [| j] Hne; cbn;
    try reflexivity; try lia.
  apply IH. lia.
Qed.

Lemma setitem_effect (buf : list byte) (i v : Z) :
  0 <= i < Py.len buf -> 0 <= v <= 255 ->
  exists buf',
    Py.setitem buf i v = Ok buf' /\ Py.len buf' = Py.len buf /\
    byte_value (nth (Z.to_nat i) buf' x00) = v /\
    (forall j, j <> Z.to_nat i -> nth j buf' x00 = nth j buf x00).
Proof.
  intros Hi Hv. unfold Py.setitem.
  destruct (byte_of_int_some v Hv) as (b & Hb). rewrite Hb.
  destruct (Z.ltb_spec i 0) as [| _]; [lia |].
  destruct (Z.ltb_spec i 0) as [| _]; [lia |].
  destruct (Z.leb_spec (Py.len buf) i) as [| _]; [lia |].
  cbn. eexists. split; [reflexivity |].
  split; [unfold Py.len; now rewrite update_length |].
  split.
  - rewrite nth_update_eq by (unfold Py.len in Hi; lia).
    now apply byte_of_int_value.
  - intros j Hj. now apply nth_update_neq.
Qed.

Lemma for_each_app {I S : Type} (body : I -> S -> result S) (xs ys : list I) (s : S) :
  for_each body (xs ++ ys) s = bind (for_each body xs s) (for_each body ys).
Proof.
  revert s. induction xs as [| x xs IH]; intros s; cbn; [reflexivity |].
  destruct (body x s); cbn; auto.
Qed.

Lemma for_each_ext {I S : Type} (f g : I -> S -> result S) (xs : list I) (s : S) :
  (forall i s', In i xs -> f i s' = g i s') ->
  for_each f xs s = for_each g xs s.
Proof.
  revert s. induction xs as [| x xs IH]; intros s Hfg; cbn; [reflexivity |].
  rewrite (Hfg x s (or_introl eq_refl)).
  destruct (g x s); cbn; [| reflexivity].
  apply IH. intros i s' Hi. apply Hfg. now right.
Qed.

Lemma range_succ (n : Z) : 0 <= n -> Py.range (n + 1) = Py.range n ++ [n].
Proof.
  intros Hn. unfold Py.range.
  replace (Z.to_nat (n + 1)) with (S (Z.to_nat n)) by lia.
  rewrite seq_S, map_app. cbn. now rewrite Z2Nat.id.
Qed.

(** A loop over [range(n)] whose invariant may mention how many turns are
    done. *)
Lemma for_each_range_invariant {S : Type} (P : Z -> S -> Prop)
  (body : Z -> S -> result S) (n : Z) (s0 : S) :
  0 <= n -> P 0 s0 ->
  (forall k s, 0 <= k < n -> P k s -> exists s', body k s = Ok s' /\ P (k + 1) s') ->
  exists s', for_each body (Py.range n) s0 = Ok s' /\ P n s'.
Proof.
  intros Hn H0 Hstep.
  assert (Hall : forall m, (m <= Z.to_nat n)%nat ->
            exists s', for_each body (Py.range (Z.of_nat m)) s0 = Ok s' /\
                       P (Z.of_nat m) s').
  { induction m as [| m IH]; intros Hm.
    - exists s0. split; [reflexivity | exact H0].
    - destruct (IH ltac:(lia)) as (s1 & Hrun & HP).
      destruct (Hstep (Z.of_nat m) s1 ltac:(lia) HP) as (s2 & Hbody & HP2).
      exists s2. rewrite Nat2Z.inj_succ, <- Z.add_1_r.
      rewrite range_succ by lia. rewrite for_each_app, Hrun. cbn.
      rewrite Hbody. split; [reflexivity | exact HP2]. }
  destruct (Hall (Z.to_nat n) (Nat.le_refl _)) as (s' & Hrun & HP).
  rewrite Z2Nat.id in * by lia. now exists s'.
Qed.

End BufferFacts.

Section SamplerContent.
Local Open Scope Z_scope.

Variable transform : Rgb -> result Rgb.

(** Up to the call of [transform], a turn of the loop computes the cube
    colour of its index. *)
Lemma hald_cell_calls_transform (size width index : Z) (out : list byte) :
  size <> 0 -> IZR (size - 1) <> 0%R ->
  hald_cell transform size width (IZR (size - 1)) index out =
  ('(r, g, b) <- transform (cube_color size index) ;;
   '(x, y) <- pixel_position width index ;;
   let offset := (y * width + x) * 4 in
   out <- Py.setitem out (offset + 0) (quantize r) ;;
   out <- Py.setitem out (offset + 1) (quantize g) ;;
   out <- Py.setitem out (offset + 2) (quantize b) ;;
   Py.setitem out (offset + 3) 255).
Proof.
  intros Hsize Hdenom. unfold hald_cell.
  rewrite cube_index_value by assumption. cbn [bind].
  unfold Py.truediv. destruct (Req_dec_T (IZR (size - 1)) 0) as [| _]; [contradiction |].
  reflexivity.
Qed.

Lemma hald_cell_effect (size width index : Z) (out : list byte) (r g b : R) :
  size <> 0 -> width <> 0 -> IZR (size - 1) <> 0%R ->
  0 <= index -> 4 * index + 3 < Py.len out ->
  transform (cube_color size index) = Ok (r, g, b) ->
  exists out',
    hald_cell transform size width (IZR (size - 1)) index out = Ok out' /\
    Py.len out' = Py.len out /\
    pixel_at out' index = [quantize r; quantize g; quantize b; 255] /\
    (forall j, (j < Z.to_nat (4 * index) \/ Z.to_nat (4 * index + 3) < j)%nat ->
       nth j out' x00 = nth j out x00).
Proof.
  intros Hsize Hwidth Hdenom Hindex Hroom Hcolor.
  rewrite hald_cell_calls_transform by assumption.
  rewrite Hcolor. cbn [bind]. rewrite pixel_position_value by assumption.
  cbn [bind]. cbv zeta.
  replace (index / width * width + index mod width) with index
    by (rewrite (Z.div_mod index width) at 1; lia).
  replace (index * 4) with (4 * index) by ring.
  destruct (setitem_effect out (4 * index + 0) (quantize r) ltac:(lia) (quantize_range r))
    as (o1 & -> & L1 & V1 & K1). cbn [bind].
  destruct (setitem_effect o1 (4 * index + 1) (quantize g) ltac:(lia) (quantize_range g))
    as (o2 & -> & L2 & V2 & K2). cbn [bind].
  destruct (setitem_effect o2 (4 * index + 2) (quantize b) ltac:(lia) (quantize_range b))
    as (o3 & -> & L3 & V3 & K3). cbn [bind].
  destruct (setitem_effect o3 (4 * index + 3) 255 ltac:(lia) ltac:(lia))
    as (o4 & -> & L4 & V4 & K4).
  exists o4. split; [reflexivity |]. split; [lia |]. split.
  - unfold pixel_at. cbn [map].
    rewrite (K4 (Z.to_nat (4 * index + 0))), (K3 (Z.to_nat (4 * index + 0))),
      (K2 (Z.to_nat (4 * index + 0))), V1 by lia.
    rewrite (K4 (Z.to_nat (4 * index + 1))), (K3 (Z.to_nat (4 * index + 1))), V2 by lia.
    rewrite (K4 (Z.to_nat (4 * index + 2))), V3 by lia.
    rewrite V4. reflexivity.
  - intros j Hj. rewrite K4, K3, K2, K1 by lia. reflexivity.
Qed.

Lemma pixel_at_unchanged (out out' : list byte) (index k : Z) :
  0 <= index < k ->
  (forall j, (j < Z.to_nat (4 * k) \/ Z.to_nat (4 * k + 3) < j)%nat ->
     nth j out' x00 = nth j out x00) ->
  pixel_at out' index = pixel_at out index.
Proof.
  intros Hindex Hsame. unfold pixel_at. cbn [map].
  rewrite !Hsame by lia. reflexivity.
Qed.

(** X15. For a level of at least 2 whose buffer size
    [width * height * 4] does not exceed [sys.maxsize], and a transform
    that returns on every colour, the buffer [generate_hald_lut] returns
    holds, at the four bytes of every index below [size^3], the quantized
    red, green and blue that the transform gives for the cube colour of
    that index, followed by the alpha 255. *)
Theorem generate_hald_lut_pixels (level : Z) :
  2 <= level ->
  hald_width level * hald_width level * 4 <= Py.maxsize ->
  (forall c, returns (transform c)) ->
  exists out,
    generate_hald_lut transform level = Ok out /\
    forall index,
      0 <= index < hald_size level * hald_size level * hald_size level ->
      exists r g b,
        transform (cube_color (hald_size level) index) = Ok (r, g, b) /\
        pixel_at out index = [quantize r; quantize g; quantize b; 255].
Proof.
  intros Hlevel Hroom Htotal.
  pose proof (size_converts level Hlevel Hroom) as Hfloat.
  unfold generate_hald_lut. cbv zeta.
  set (size := hald_size level). set (width := hald_width level).
  assert (Hsize : 4 <= size) by (unfold size, hald_size; nia).
  assert (Hwidth : 0 < width) by (unfold width, hald_width; nia).
  assert (Hcells : size * size * size = width * width)
    by (unfold width, size, hald_width, hald_size; ring).
  fold width in Hroom. rewrite bytearray_ok by nia.
  cbn [bind]. unfold Py.float_of_int.
  assert (Hdenom : (3 <= IZR (size - 1))%R) by (apply IZR_le; lia).
  fold size in Hfloat.
  rewrite Rabs_pos_eq by lra.
  destruct Rlt_dec as [| _]; [lra |]. cbn [bind].
  set (out0 := repeat x00 (Z.to_nat (width * width * 4))).
  assert (Hlen0 : Py.len out0 = width * width * 4).
  { unfold Py.len, out0. rewrite repeat_length. lia. }
  destruct (for_each_range_invariant
              (fun k out =>
                 Py.len out = width * width * 4 /\
                 forall index, 0 <= index < k ->
                   exists r g b,
                     transform (cube_color size index) = Ok (r, g, b) /\
                     pixel_at out index = [quantize r; quantize g; quantize b; 255])
              (hald_cell transform size width (IZR (size - 1)))
              (size * size * size) out0)
    as (out & Hrun & _ & Hpixels).
  - nia.
  - split; [exact Hlen0 | intros index Hindex; lia].
  - intros k buf Hk (Hlen & Hdone).
    destruct (Htotal (cube_color size k)) as ([[r g] b] & Hcolor).
    destruct (hald_cell_effect size width k buf r g b)
      as (buf' & Hcell & Hlen' & Hpixel & Hrest);
      try assumption; try lia; try lra.
    exists buf'. split; [exact Hcell |]. split; [lia |].
    intros index Hindex.
    destruct (Z.eq_dec index k) as [-> | Hne].
    + exists r, g, b. auto.
    + destruct (Hdone index ltac:(lia)) as (r' & g' & b' & Hc' & Hp').
      exists r', g', b'. split; [exact Hc' |].
      rewrite (pixel_at_unchanged buf buf' index k) by (auto; lia). exact Hp'.
  - exists out. split; [exact Hrun | exact Hpixels].
Qed.

(** X16. A transform that raises stops the sampling: for a level of at
    least 2 whose buffer size [width * height * 4] does not exceed
    [sys.maxsize], if the transform returns on the cube colours of all
    indices before some index below [size^3] and raises there, then
    [generate_hald_lut] raises that same exception. *)
Theorem generate_hald_lut_propagates (level k : Z) (e : exn) :
  2 <= level ->
  hald_width level * hald_width level * 4 <= Py.maxsize ->
  0 <= k < hald_size level * hald_size level * hald_size level ->
  (forall index, 0 <= index < k ->
     returns (transform (cube_color (hald_size level) index))) ->
  transform (cube_color (hald_size level) k) = Raise e ->
  generate_hald_lut transform level = Raise e.
Proof.
  intros Hlevel Hroom Hk Hbefore Hraise.
  pose proof (size_converts level Hlevel Hroom) as Hfloat.
  unfold generate_hald_lut. cbv zeta.
  set (size := hald_size level) in *. set (width := hald_width level).
  assert (Hsize : 4 <= size) by (unfold size, hald_size; nia).
  assert (Hwidth : 0 < width) by (unfold width, hald_width; nia).
  assert (Hcells : size * size * size = width * width)
    by (unfold width, size, hald_width, hald_size; ring).
  fold width in Hroom. rewrite bytearray_ok by nia.
  cbn [bind]. unfold Py.float_of_int.
  assert (Hdenom : (3 <= IZR (size - 1))%R) by (apply IZR_le; lia).
  rewrite Rabs_pos_eq by lra.
  destruct Rlt_dec as [| _]; [lra |]. cbn [bind].
  set (out0 := repeat x00 (Z.to_nat (width * width * 4))).
  assert (Hlen0 : Py.len out0 = width * width * 4).
  { unfold Py.len, out0. rewrite repeat_length. lia. }
  assert (Hsplit : exists rest,
            Py.range (size * size * size) = Py.range k ++ k :: rest).
  { exists (map Z.of_nat (seq (S (Z.to_nat k)) (Z.to_nat (size * size * size - k - 1)))).
    unfold Py.range.
    replace (Z.to_nat (size * size * size))
      with (Z.to_nat k + S (Z.to_nat (size * size * size - k - 1)))%nat by lia.
    rewrite seq_app, map_app. cbn [seq map Nat.add].
    now rewrite Z2Nat.id by lia. }
  destruct Hsplit as (rest & Hsplit).
  rewrite Hsplit, for_each_app.
  destruct (for_each_range_invariant
              (fun _ out => Py.len out = width * width * 4)
              (hald_cell transform size width (IZR (size - 1))) k out0)
    as (out & -> & Hlen).
  - lia.
  - exact Hlen0.
  - intros i buf Hi Hlen.
    destruct (Hbefore i Hi) as ([[r g] b] & Hcolor).
    destruct (hald_cell_effect size width i buf r g b)
      as (buf' & Hcell & Hlen' & _);
      try assumption; try lia; try lra.
    exists buf'. split; [exact Hcell | lia].
  - cbn [bind for_each].
    rewrite hald_cell_calls_transform by (try lia; lra).
    rewrite Hraise. reflexivity.
Qed.

End SamplerContent.

Section SamplerEdges.
Local Open Scope Z_scope.

Lemma generate_hald_lut_pixels_witness :
  (2 <= 2 /\ hald_width 2 * hald_width 2 * 4 <= Py.maxsize /\
   forall c, returns (transform_trix_400 c)) /\
  exists out,
    generate_hald_lut transform_trix_400 2 = Ok out /\
    forall index,
      0 <= index < hald_size 2 * hald_size 2 * hald_size 2 ->
      exists r g b,
        transform_trix_400 (cube_color (hald_size 2) index) = Ok (r, g, b) /\
        pixel_at out index = [quantize r; quantize g; quantize b; 255].
Proof.
  assert (Hlevel : 2 <= 2) by lia.
  assert (Hroom : hald_width 2 * hald_width 2 * 4 <= Py.maxsize)
    by (unfold hald_width, hald_size, Py.maxsize; lia).
  split; [split; [exact Hlevel | split; [exact Hroom | exact transform_trix_400_returns]] |].
  exact (generate_hald_lut_pixels transform_trix_400 2 Hlevel Hroom
           transform_trix_400_returns).
Defined.

Lemma generate_hald_lut_propagates_witness :
  (2 <= 2 /\ hald_width 2 * hald_width 2 * 4 <= Py.maxsize /\
   0 <= 0 < hald_size 2 * hald_size 2 * hald_size 2 /\
   raising_transform (cube_color (hald_size 2) 0) = Raise TypeError) /\
  generate_hald_lut raising_transform 2 = Raise TypeError.
Proof.
  assert (Hlevel : 2 <= 2) by lia.
  assert (Hroom : hald_width 2 * hald_width 2 * 4 <= Py.maxsize)
    by (unfold hald_width, hald_size, Py.maxsize; lia).
  assert (Hk : 0 <= 0 < hald_size 2 * hald_size 2 * hald_size 2)
    by (unfold hald_size; lia).
  assert (Hraise : raising_transform (cube_color (hald_size 2) 0) = Raise TypeError)
    by reflexivity.
  split; [auto |].
  apply (generate_hald_lut_propagates raising_transform 2 0 TypeError
           Hlevel Hroom Hk); [| exact Hraise].
  intros index Hindex. lia.
Defined.

Variable transform : Rgb -> result Rgb.

(** The width enters a turn of the loop only through [y * width + x],
    which is the index again. *)
Lemma hald_cell_any_width (size width width' : Z) (denom : R) (index : Z)
  (out : list byte) :
  width <> 0 -> width' <> 0 ->
  hald_cell transform size width denom index out =
  hald_cell transform size width' denom index out.
Proof.
  intros Hw Hw'. unfold hald_cell.
  destruct (cube_index size index) as [[[ri gi] bi] | e]; [| reflexivity].
  cbn [bind].
  destruct (Py.truediv (IZR ri) denom) as [sr | e]; [| reflexivity]. cbn [bind].
  destruct (Py.truediv (IZR gi) denom) as [sg | e]; [| reflexivity]. cbn [bind].
  destruct (Py.truediv (IZR bi) denom) as [sb | e]; [| reflexivity]. cbn [bind].
  destruct (transform (sr, sg, sb)) as [[[r g] b] | e]; [| reflexivity].
  cbn [bind]. rewrite !pixel_position_value by assumption. cbn [bind]. cbv zeta.
  replace (index / width * width + index mod width) with index
    by (rewrite (Z.div_mod index width) at 1; lia).
  replace (index / width' * width' + index mod width') with index
    by (rewrite (Z.div_mod index width') at 1; lia).
  reflexivity.
Qed.

(** X17. Levels outside the intended range are not refused: level 0 gives
    the empty buffer without calling the transform, and a negative level
    gives exactly what its absolute value gives, result or exception. *)
Theorem generate_hald_lut_edge_levels :
  generate_hald_lut transform 0 = Ok [] /\
  forall level, generate_hald_lut transform (- level) = generate_hald_lut transform level.
Proof.
  split.
  { unfold generate_hald_lut, hald_width, hald_size. cbv zeta.
    change (0 * (0 * 0) * (0 * (0 * 0)) * 4) with 0.
    change (0 * 0 * (0 * 0) * (0 * 0)) with 0.
    change (0 * 0 - 1) with (-1).
    rewrite bytearray_ok by (unfold Py.maxsize; lia). cbn [bind].
    unfold Py.float_of_int.
    destruct Rlt_dec as [Hbig | _]; [| reflexivity].
    exfalso. pose proof one_le_DBL_MAX.
    rewrite Rabs_left in Hbig by lra. lra. }
  intros level. destruct (Z.eq_dec level 0) as [-> | Hlevel]; [reflexivity |].
  unfold generate_hald_lut. cbv zeta.
  assert (Hsize : hald_size (- level) = hald_size level) by (unfold hald_size; ring).
  assert (Hwidth : hald_width (- level) = - hald_width level)
    by (unfold hald_width, hald_size; ring).
  assert (Hw : hald_width level <> 0) by (unfold hald_width, hald_size; nia).
  rewrite Hsize, Hwidth.
  replace (- hald_width level * - hald_width level * 4)
    with (hald_width level * hald_width level * 4) by ring.
  destruct (Py.bytearray (hald_width level * hald_width level * 4)) as [out0 | e];
    [| reflexivity].
  cbn [bind].
  destruct (Py.float_of_int (hald_size level - 1)) as [denom | e]; [| reflexivity].
  cbn [bind]. apply for_each_ext.
  intros index buf _. apply hald_cell_any_width; lia.
Qed.

(** X22. A level whose buffer size [width * height * 4] exceeds
    [sys.maxsize] is refused by [bytearray]: [generate_hald_lut] raises
    [OverflowError], whatever the transform does. Among the levels from 0
    on these are the levels from 1150 on. *)
Theorem generate_hald_lut_too_large :
  (forall level,
     Py.maxsize < hald_width level * hald_width level * 4 ->
     generate_hald_lut transform level = Raise OverflowError) /\
  (forall level,
     0 <= level ->
     (Py.maxsize < hald_width level * hald_width level * 4 <-> 1150 <= level)).
Proof.
  split.
  - intros level Hbig. unfold generate_hald_lut. cbv zeta. unfold Py.bytearray.
    destruct (Z.ltb_spec (hald_width level * hald_width level * 4) 0) as [Hneg | _].
    { unfold Py.maxsize in Hbig. lia. }
    destruct (Z.ltb_spec Py.maxsize (hald_width level * hald_width level * 4));
      [reflexivity | lia].
  - intros level Hlevel. unfold hald_width, hald_size, Py.maxsize.
    set (size := level * level). set (width := level * size).
    split.
    + intros Hbig. destruct (Z_lt_le_dec level 1150) as [Hsmall | Hlarge];
        [exfalso | exact Hlarge].
      assert (Hsize : 0 <= size <= 1149 * 1149) by (unfold size; nia).
      assert (Hwidth : 0 <= width <= 1149 * (1149 * 1149)) by (unfold width; nia).
      assert (width * width <= 1149 * (1149 * 1149) * (1149 * (1149 * 1149))) by nia.
      lia.
    + intros Hlarge.
      assert (Hsize : 1150 * 1150 <= size) by (unfold size; nia).
      assert (Hwidth : 1150 * (1150 * 1150) <= width) by (unfold width; nia).
      assert (1150 * (1150 * 1150) * (1150 * (1150 * 1150)) <= width * width) by nia.
      lia.
Qed.

End SamplerEdges.

Lemma generate_hald_lut_too_large_witness :
  (Py.maxsize < hald_width 1150 * hald_width 1150 * 4)%Z /\
  generate_hald_lut transform_trix_400 1150 = Raise OverflowError.
Proof.
  assert (Hbig : (Py.maxsize < hald_width 1150 * hald_width 1150 * 4)%Z)
    by reflexivity.
  split; [exact Hbig |].
  exact (proj1 (generate_hald_lut_too_large transform_trix_400) 1150%Z Hbig).
Defined.

(** * Further properties of the PNG writer *)

Section ListFacts.

Context {A : Type}.

Lemma firstn_exact (a b : list A) (n : nat) :
  List.length a = n -> firstn n (a ++ b) = a.
Proof.
  intros <-. rewrite firstn_app, Nat.sub_diag, firstn_all. cbn. apply app_nil_r.
Qed.

Lemma skipn_exact (a b : list A) (n : nat) :
  List.length a = n -> skipn n (a ++ b) = b.
Proof.
  intros <-. rewrite skipn_app, Nat.sub_diag, skipn_all. reflexivity.
Qed.

Lemma firstn_plus (n m : nat) (l : list A) :
  firstn (n + m) l = firstn n l ++ firstn m (skipn n l).
Proof.
  revert l. induction n as [| n IH]; intros l; [reflexivity |].
  destruct l as [| a l]; cbn; [now rewrite firstn_nil | now rewrite IH].
Qed.

Lemma skipn_plus (n m : nat) (l : list A) :
  skipn m (skipn n l) = skipn (n + m) l.
Proof.
  revert l. induction n as [| n IH]; intros l; [reflexivity |].
  destruct l as [| a l]; cbn; [now rewrite skipn_nil | apply IH].
Qed.

Lemma slice_inside (l : list A) (i j : Z) :
  (0 <= i <= j)%Z -> (j <= Py.len l)%Z ->
  Py.slice l i j = firstn (Z.to_nat (j - i)) (skipn (Z.to_nat i) l).
Proof.
  intros Hij Hj. unfold Py.slice, Py.clip_index.
  destruct (Z.ltb_spec i 0); [lia |]. destruct (Z.ltb_spec j 0); [lia |].
  rewrite !Z.min_l by lia. f_equal. lia.
Qed.

Lemma fold_left_rows (row : Z -> list A) (ys : list Z) (acc : list A) :
  fold_left (fun scanlines y => scanlines ++ row y) ys acc =
  acc ++ List.concat (map row ys).
Proof.
  revert acc. induction ys as [| y ys IH]; intros acc; cbn.
  - now rewrite app_nil_r.
  - now rewrite IH, app_assoc.
Qed.

End ListFacts.

Section ScanlineFacts.
Local Open Scope Z_scope.

Lemma filter_rows_from (stride : Z) (rgba : list byte) (ys : list Z) (acc : list byte) :
  fold_left
    (fun scanlines y =>
       let scanlines := scanlines ++ [x00] in
       let start := y * stride in
       scanlines ++ Py.slice rgba start (start + stride))
    ys acc =
  acc ++ List.concat (map (fun y => x00 :: Py.slice rgba (y * stride) (y * stride + stride)) ys).
Proof.
  revert acc. induction ys as [| y ys IH]; intros acc; cbn.
  - now rewrite app_nil_r.
  - rewrite IH. now rewrite <- !app_assoc.
Qed.

(** The rows as a concatenation. *)
Lemma filter_rows_concat (width height : Z) (rgba : list byte) :
  filter_rows width height rgba =
  List.concat (map (fun y => x00 :: Py.slice rgba (y * (width * 4)) (y * (width * 4) + width * 4))
            (Py.range height)).
Proof.
  unfold filter_rows. cbv zeta. now rewrite filter_rows_from.
Qed.

Lemma rows_from (stride : nat) (rgba : list byte) (n a : nat) :
  ((a + n) * stride <= List.length rgba)%nat ->
  let rows :=
    List.concat (map (fun y => x00 :: firstn stride (skipn (y * stride) rgba)) (seq a n)) in
  List.length rows = (n * (1 + stride))%nat /\
  unfilter_rows stride n rows = firstn (n * stride) (skipn (a * stride) rgba).
Proof.
  cbv zeta. revert a. induction n as [| n IH]; intros a Hroom.
  - split; reflexivity.
  - cbn [seq map List.concat unfilter_rows].
    destruct (IH (S a) ltac:(lia)) as (Hlen & Hback).
    assert (Hrow : List.length (firstn stride (skipn (a * stride) rgba)) = stride).
    { rewrite length_firstn, length_skipn. nia. }
    split.
    + rewrite length_app. cbn [List.length]. rewrite Hrow, Hlen. lia.
    + cbn [skipn Nat.add app]. rewrite firstn_exact by exact Hrow.
      rewrite skipn_exact by exact Hrow. rewrite Hback.
      replace (S n * stride)%nat with (stride + n * stride)%nat by lia.
      rewrite firstn_plus, skipn_plus. do 3 f_equal. lia.
Qed.

Lemma filter_rows_unfilter (width height : Z) (rgba : list byte) :
  0 <= width -> 0 <= height -> Py.len rgba = width * height * 4 ->
  Py.len (filter_rows width height rgba) = height * (1 + 4 * width) /\
  unfilter_rows (Z.to_nat (width * 4)) (Z.to_nat height)
    (filter_rows width height rgba) = rgba.
Proof.
  intros Hw Hh Hlen. rewrite filter_rows_concat.
  set (stride := Z.to_nat (width * 4)).
  assert (Hsame :
    map (fun y => x00 :: Py.slice rgba (y * (width * 4)) (y * (width * 4) + width * 4))
      (Py.range height) =
    map (fun y => x00 :: firstn stride (skipn (y * stride) rgba))
      (seq 0 (Z.to_nat height))).
  { unfold Py.range. rewrite map_map. apply map_ext_in.
    intros y Hy. apply in_seq in Hy. f_equal.
    rewrite slice_inside by (unfold Py.len in *; nia).
    unfold stride. f_equal; [f_equal; lia | f_equal; nia]. }
  rewrite Hsame.
  destruct (rows_from stride rgba (Z.to_nat height) 0) as (Hrows & Hback).
  { unfold stride, Py.len in *. nia. }
  split.
  - unfold Py.len. rewrite Hrows. unfold stride. nia.
  - rewrite Hback. cbn [Nat.mul skipn]. apply firstn_all2.
    unfold stride, Py.len in *. nia.
Qed.

(** X18. When the buffer holds [height] rows of [width] pixels, the
    scanline stream built for compression has [height * (1 + 4 * width)]
    bytes, and dropping the filter byte in front of each row gives the
    buffer back. *)
Theorem filter_rows_round_trip (width height : Z) (rgba : list byte) :
  0 <= width -> 0 <= height -> Py.len rgba = width * height * 4 ->
  Py.len (filter_rows width height rgba) = height * (1 + 4 * width) /\
  unfilter_rows (Z.to_nat (width * 4)) (Z.to_nat height)
    (filter_rows width height rgba) = rgba.
Proof.
  intros Hw Hh Hlen. exact (filter_rows_unfilter width height rgba Hw Hh Hlen).
Qed.

Lemma filter_rows_round_trip_witness :
  (0 <= 2 /\ Py.len white_2x2 = 2 * 2 * 4) /\
  Py.len (filter_rows 2 2 white_2x2) = 2 * (1 + 4 * 2) /\
  unfilter_rows (Z.to_nat (2 * 4)) (Z.to_nat 2) (filter_rows 2 2 white_2x2) = white_2x2.
Proof.
  assert (Hd : 0 <= 2) by lia.
  assert (Hlen : Py.len white_2x2 = 2 * 2 * 4) by reflexivity.
  split; [split; assumption |].
  exact (filter_rows_round_trip 2 2 white_2x2 Hd Hd Hlen).
Defined.

End ScanlineFacts.

Section ReaderFacts.
Local Open Scope Z_scope.

Lemma skipn_past {A : Type} (a b : list A) (k m : nat) :
  List.length a = k -> skipn (k + m) (a ++ b) = skipn m b.
Proof.
  intros Hk. now rewrite <- skipn_plus, skipn_exact.
Qed.

Lemma bytes_eqb_refl (a : list byte) : bytes_eqb a a = true.
Proof.
  unfold bytes_eqb. destruct list_eq_dec; [reflexivity | contradiction].
Qed.

Variable zlib_crc32 : list byte -> Z.

Lemma read_chunk_layout (tag payload c rest : list byte) :
  chunk_layout zlib_crc32 tag payload c ->
  read_chunk (c ++ rest) =
  Some (tag, payload, Z.land (zlib_crc32 (tag ++ payload)) 0xFFFFFFFF, rest).
Proof.
  intros [(len4 & crc4 & -> & Ll & Vl & Lc & Vc) Lt].
  unfold read_chunk. rewrite <- !app_assoc.
  rewrite (firstn_exact len4 _ 4 Ll), Vl.
  assert (Hn : Z.to_nat (Py.len payload) = List.length payload)
    by (unfold Py.len; lia).
  rewrite Hn. cbv zeta.
  destruct (Nat.ltb_spec (List.length (len4 ++ tag ++ payload ++ crc4 ++ rest))
              (12 + List.length payload)) as [Hshort | _].
  { rewrite !length_app in Hshort. lia. }
  replace (skipn 4 (len4 ++ tag ++ payload ++ crc4 ++ rest))
    with (tag ++ payload ++ crc4 ++ rest) by (now rewrite skipn_exact).
  rewrite (firstn_exact tag _ 4 Lt).
  replace (skipn 8 (len4 ++ tag ++ payload ++ crc4 ++ rest))
    with (payload ++ crc4 ++ rest).
  2:{ change 8%nat with (4 + 4)%nat.
      rewrite (skipn_past len4 _ 4 4 Ll). now rewrite skipn_exact. }
  rewrite (firstn_exact payload _ _ eq_refl).
  replace (skipn (8 + List.length payload) (len4 ++ tag ++ payload ++ crc4 ++ rest))
    with (crc4 ++ rest).
  2:{ replace (8 + List.length payload)%nat
        with (4 + (4 + (List.length payload + 0)))%nat by lia.
      rewrite (skipn_past len4 _ 4 _ Ll), (skipn_past tag _ 4 _ Lt).
      now rewrite (skipn_past payload _ _ 0%nat eq_refl). }
  rewrite (firstn_exact crc4 _ 4 Lc), Vc.
  replace (skipn (12 + List.length payload) (len4 ++ tag ++ payload ++ crc4 ++ rest))
    with rest.
  2:{ replace (12 + List.length payload)%nat
        with (4 + (4 + (List.length payload + 4)))%nat by lia.
      rewrite (skipn_past len4 _ 4 _ Ll), (skipn_past tag _ 4 _ Lt).
      rewrite (skipn_past payload _ _ 4%nat eq_refl).
      now rewrite skipn_exact. }
  reflexivity.
Qed.

Lemma chunk_layout_length (tag payload c : list byte) :
  chunk_layout zlib_crc32 tag payload c -> Py.len c = 12 + Py.len payload.
Proof.
  intros [(len4 & crc4 & -> & Ll & _ & Lc & _) Lt].
  unfold Py.len. rewrite !length_app. lia.
Qed.

Variable zlib_compress : list byte -> Z -> list byte.

Lemma write_png_rgba_readable (path : string) (width height : Z)
  (rgba : list byte) (fs : filesystem) :
  Py.len rgba = width * height * 4 ->
  fits_uint32 width -> fits_uint32 height ->
  fits_uint32 (Py.len (zlib_compress (filter_rows width height rgba) 9)) ->
  exists data,
    write_png_rgba zlib_crc32 zlib_compress path width height rgba fs =
      (Ok tt, write_bytes path data fs) /\
    read_png zlib_crc32 data =
      Some (width, height, zlib_compress (filter_rows width height rgba) 9) /\
    Py.len data = 57 + Py.len (zlib_compress (filter_rows width height rgba) 9).
Proof.
  intros Hlen Hw Hh Hd.
  destruct (write_png_rgba_cases zlib_crc32 zlib_compress path width height rgba fs)
    as [(Hno & _) | [(_ & Hno & _) | (_ & _ & _ & _ & ihdr & c1 & c2 & c3 & Hres & Hhdr & H1 & H2 & H3)]];
    [contradiction | tauto |].
  set (idat := zlib_compress (filter_rows width height rgba) 9) in *.
  exists (png_signature ++ c1 ++ c2 ++ c3).
  split; [exact Hres |].
  destruct Hhdr as [(w4 & h4 & Hihdr & Lw & Vw & Lh & Vh)].
  split.
  - unfold read_png.
    rewrite (firstn_exact png_signature _ 8 eq_refl), bytes_eqb_refl. cbn [negb].
    rewrite (skipn_exact png_signature _ 8 eq_refl).
    rewrite (read_chunk_layout IHDR ihdr c1 (c2 ++ c3) H1).
    rewrite (read_chunk_layout IDAT idat c2 c3 H2).
    rewrite <- (app_nil_r c3) at 1.
    rewrite (read_chunk_layout IEND [] c3 [] H3).
    unfold checksum_ok. rewrite !bytes_eqb_refl, !Z.eqb_refl.
    rewrite Hihdr.
    replace (skipn 8 (w4 ++ h4 ++ [x08; x06; x00; x00; x00]))
      with [x08; x06; x00; x00; x00].
    2:{ change 8%nat with (4 + 4)%nat.
        rewrite (skipn_past w4 _ 4 4 Lw). now rewrite skipn_exact. }
    rewrite bytes_eqb_refl. cbn [andb].
    rewrite (firstn_exact w4 _ 4 Lw), Vw.
    rewrite (skipn_exact w4 _ 4 Lw), (firstn_exact h4 _ 4 Lh), Vh.
    reflexivity.
  - pose proof (chunk_layout_length _ _ _ H1) as L1.
    pose proof (chunk_layout_length _ _ _ H2) as L2.
    pose proof (chunk_layout_length _ _ _ H3) as L3.
    assert (Lihdr : Py.len ihdr = 13).
    { rewrite Hihdr. unfold Py.len. rewrite !length_app, Lw, Lh. reflexivity. }
    unfold Py.len in *. rewrite !length_app.
    change (List.length png_signature) with 8%nat.
    change (List.length (@nil byte)) with 0%nat in L3. lia.
Qed.

Variable zlib_decompress : list byte -> list byte.
Hypothesis lossless : forall data level, zlib_decompress (zlib_compress data level) = data.

(** X19. When [write_png_rgba] succeeds, the file it writes reads back:
    a reader that checks the signature, the three tags, the three
    checksums and the header bytes 8, 6, 0, 0, 0 finds exactly the width
    and the height that were passed and one IDAT payload; decompressing
    that payload and dropping the filter bytes gives the pixel buffer
    back. The file is 57 bytes longer than the compressed data. *)
Theorem write_png_rgba_round_trip (path : string) (width height : Z)
  (rgba : list byte) (fs : filesystem) :
  Py.len rgba = width * height * 4 ->
  fits_uint32 width -> fits_uint32 height ->
  fits_uint32 (Py.len (zlib_compress (filter_rows width height rgba) 9)) ->
  exists data idat,
    write_png_rgba zlib_crc32 zlib_compress path width height rgba fs =
      (Ok tt, write_bytes path data fs) /\
    read_png zlib_crc32 data = Some (width, height, idat) /\
    unfilter_rows (Z.to_nat (width * 4)) (Z.to_nat height) (zlib_decompress idat) = rgba /\
    Py.len data = 57 + Py.len idat.
Proof.
  intros Hlen Hw Hh Hd.
  destruct (write_png_rgba_readable path width height rgba fs Hlen Hw Hh Hd)
    as (data & Hres & Hread & Hsize).
  exists data, (zlib_compress (filter_rows width height rgba) 9).
  split; [exact Hres |]. split; [exact Hread |]. split; [| exact Hsize].
  rewrite lossless.
  apply filter_rows_unfilter; unfold fits_uint32 in *; lia.
Qed.

End ReaderFacts.

Lemma write_png_rgba_round_trip_witness :
  ((forall data level, stored data level = data) /\
   Py.len white_2x2 = (2 * 2 * 4)%Z /\ fits_uint32 2 /\
   fits_uint32 (Py.len (stored (filter_rows 2 2 white_2x2) 9))) /\
  exists data idat,
    write_png_rgba crc32 stored "white.png" 2 2 white_2x2 [] =
      (Ok tt, write_bytes "white.png" data []) /\
    read_png crc32 data = Some (2, 2, idat)%Z /\
    unfilter_rows (Z.to_nat (2 * 4)) (Z.to_nat 2) idat = white_2x2 /\
    Py.len data = (57 + Py.len idat)%Z.
Proof.
  assert (Hinv : forall data level, stored data level = data) by reflexivity.
  assert (Hlen : Py.len white_2x2 = (2 * 2 * 4)%Z) by reflexivity.
  assert (Hdim : fits_uint32 2) by (unfold fits_uint32; lia).
  assert (Hdat : fits_uint32 (Py.len (stored (filter_rows 2 2 white_2x2) 9)))
    by (rewrite white_2x2_compressed_length; unfold fits_uint32; lia).
  split; [auto |].
  exact (write_png_rgba_round_trip crc32 stored (fun data => data) Hinv
           "white.png" 2 2 white_2x2 [] Hlen Hdim Hdim Hdat).
Defined.

(** * The entry point *)

Section MainFacts.
Local Open Scope Z_scope.

Variable zlib_crc32 : list byte -> Z.
Variable zlib_compress : list byte -> Z -> list byte.

(** The scanline stream of a 512 x 512 image has [512 * 2049] bytes; its
    compressed form must fit a chunk. *)
Hypothesis compressed_fits :
  forall data, Py.len data = 512 * 2049 -> fits_uint32 (Py.len (zlib_compress data 9)).






End MainFacts.


(** The reader on the file of the 2x2 white image. *)
Example read_white_png :
  read_png crc32
    (png_signature ++
     [x00; x00; x00; x0d; x49; x48; x44; x52;
      x00; x00; x00; x02; x00; x00; x00; x02; x08; x06; x00; x00; x00;
      x72; xb6; x0d; x24;
      x00; x00; x00; x12; x49; x44; x41; x54;
      x00; xff; xff; xff; xff; xff; xff; xff; xff;
      x00; xff; xff; xff; xff; xff; xff; xff; xff;
      x4f; x54; x6f; x77;
      x00; x00; x00; x00; x49; x45; x4e; x44; xae; x42; x60; x82]) =
  Some (2, 2, filter_rows 2 2 white_2x2)%Z.
Proof. vm_compute. reflexivity. Qed.

Section CubeColours.
Local Open Scope Z_scope.

Lemma unit_fraction (a d : Z) : 0 <= a <= d -> 0 < d -> in_unit (IZR a / IZR d).
Proof.
  intros Ha Hd. unfold in_unit.
  assert (Hd' : (0 < IZR d)%R) by now apply IZR_lt.
  assert (Ha0 : (0 <= IZR a)%R) by (apply IZR_le; lia).
  assert (Had : (IZR a <= IZR d)%R) by (apply IZR_le; lia).
  split.
  - apply Rmult_le_pos; [exact Ha0 | left; now apply Rinv_0_lt_compat].
  - apply (Rmult_le_reg_r (IZR d)); [exact Hd' |].
    unfold Rdiv. rewrite Rmult_assoc, Rinv_l by lra. lra.
Qed.

(** X21. The sampler only ever hands the transform colours of the unit
    cube: for a size of at least 2, the cube colour of every index below
    [size^3] lies in [[0, 1]^3]; index 0 is black and the last index is
    white. *)
Theorem cube_color_range (size : Z) :
  2 <= size ->
  (forall index, 0 <= index < size * size * size ->
     in_unit_cube (cube_color size index)) /\
  cube_color size 0 = (0, 0, 0)%R /\
  cube_color size (size * size * size - 1) = (1, 1, 1)%R.
Proof.
  intros Hsize.
  assert (Hss : 0 < size * size) by nia.
  split; [| split].
  - intros index Hindex. unfold cube_color. cbv zeta. cbn.
    pose proof (Z.mod_pos_bound index size ltac:(lia)).
    pose proof (Z.mod_pos_bound (index / size) size ltac:(lia)).
    pose proof (Z.div_pos index (size * size) ltac:(lia) Hss).
    pose proof (Z.div_lt_upper_bound index (size * size) size Hss ltac:(nia)).
    repeat split; apply unit_fraction; lia.
  - unfold cube_color. cbv zeta.
    rewrite Z.mod_0_l, !Z.div_0_l, Z.mod_0_l by lia.
    assert (IZR (size - 1) <> 0%R) by (apply not_0_IZR; lia).
    f_equal; [f_equal |]; field; assumption.
  - unfold cube_color. cbv zeta.
    assert (E0 : size * size * size - 1 =
                 (size - 1) + ((size - 1) + (size - 1) * size) * size) by ring.
    assert (E1 : (size * size * size - 1) mod size = size - 1).
    { rewrite E0, Z.mod_add by lia. apply Z.mod_small. lia. }
    assert (E2 : (size * size * size - 1) / size = (size - 1) + (size - 1) * size).
    { rewrite E0, Z.div_add by lia. rewrite Z.div_small by lia. lia. }
    assert (E3 : (size * size * size - 1) / (size * size) = size - 1).
    { rewrite <- Z.div_div by lia. rewrite E2.
      rewrite Z.div_add by lia. rewrite Z.div_small by lia. lia. }
    rewrite E1, E2, E3. rewrite Z.mod_add by lia. rewrite Z.mod_small by lia.
    assert (IZR (size - 1) <> 0%R) by (apply not_0_IZR; lia).
    f_equal; [f_equal |]; field; assumption.
Qed.

Lemma cube_color_range_witness :
  (2 <= 64 /\ 0 <= 4097 < 64 * 64 * 64) /\ in_unit_cube (cube_color 64 4097).
Proof.
  assert (Hs : 2 <= 64) by lia.
  assert (Hi : 0 <= 4097 < 64 * 64 * 64) by lia.
  split; [split; assumption |].
  exact (proj1 (cube_color_range 64 Hs) 4097 Hi).
Defined.

End CubeColours.
